(** * The EC2 NAT gateway resource: create, read, update, delete

    A shallow embedding of [internal/service/ec2/nat_gateway.go]: the four
    lifecycle functions of the resource and the refresh function they probe
    the remote gateway with.  Go pointers are [option]s, Go maps are [gmap]s,
    a Go function that talks to AWS is a computation over the attributes of
    the resource and the list of requests sent so far, and a run-time panic
    is an outcome of its own.  The [log.Printf] lines are left out. *)

From Stdlib Require Import String Ascii List Bool Arith Lia.
From stdpp Require Import base option gmap strings list fin_maps.

Open Scope string_scope.

(** ** Go strings *)

Module strings.

(** A byte below [utf8.RuneSelf]. *)
Definition isASCII_byte (c : ascii) : bool := Nat.ltb (nat_of_ascii c) 128.

Definition isUpper_byte (c : ascii) : bool :=
  Nat.leb 65 (nat_of_ascii c) && Nat.leb (nat_of_ascii c) 90.

Fixpoint isASCII (s : string) : bool :=
  match s with
  | EmptyString => true
  | String c s' => isASCII_byte c && isASCII s'
  end.

Fixpoint hasUpper (s : string) : bool :=
  match s with
  | EmptyString => false
  | String c s' => isUpper_byte c || hasUpper s'
  end.

(** [c += 'a' - 'A'] for an upper-case byte. *)
Definition lower_byte (c : ascii) : ascii :=
  if isUpper_byte c then ascii_of_nat (nat_of_ascii c + 32) else c.

Fixpoint lower_bytes (s : string) : string :=
  match s with
  | EmptyString => EmptyString
  | String c s' => String (lower_byte c) (lower_bytes s')
  end.

(** [strings.ToLower]: a string of ASCII bytes is lowered byte by byte
    (and returned as it is when it has no upper-case byte); any other
    string goes through [strings.Map(unicode.ToLower, s)], whose Unicode
    tables are not modelled and come in as [unicodeLower]. *)
Definition ToLower (unicodeLower : string -> string) (s : string) : string :=
  if isASCII s then
    if negb (hasUpper s) then s else lower_bytes s
  else unicodeLower s.

(** [strings.Contains s substr]. *)
Definition Contains (s substr : string) : bool :=
  match String.index 0 substr s with
  | Some _ => true
  | None => false
  end.

End strings.

(** ** Go errors *)

(** The errors the resource sees and builds.  [awserr_New] is an
    [awserr.Error] of the SDK, with its code and message; [errors_New] is an
    error of any other kind (a transport failure, a time-out of a waiter);
    [fmt_Errorf_w prefix err] is [fmt.Errorf(prefix + "%w", err)], which
    wraps [err]. *)
Inductive error : Type :=
| awserr_New (code message : string)
| errors_New (text : string)
| fmt_Errorf_w (prefix : string) (err : error).

#[global] Instance error_eq_dec : EqDecision error.
Proof. solve_decision. Defined.

(** [err.Error()]. *)
Fixpoint Error (err : error) : string :=
  match err with
  | awserr_New code message => code ++ ": " ++ message
  | errors_New text => text
  | fmt_Errorf_w prefix err' => prefix ++ Error err'
  end.

Module tfawserr.

(** [errors.As(err, &awsErr)]: the first [awserr.Error] on the chain of
    wrapped errors, as its code and message. *)
Fixpoint As_awserr (err : error) : option (string * string) :=
  match err with
  | awserr_New code message => Some (code, message)
  | errors_New _ => None
  | fmt_Errorf_w _ err' => As_awserr err'
  end.

(** [tfawserr.ErrCodeEquals(err, code)]; [err] may be nil. *)
Definition ErrCodeEquals (err : option error) (code : string) : bool :=
  match err with
  | None => false
  | Some e =>
      match As_awserr e with
      | Some (c, _) => bool_decide (c = code)
      | None => false
      end
  end.

(** [tfawserr.ErrMessageContains(err, code, message)]; [err] may be nil. *)
Definition ErrMessageContains (err : option error) (code message : string) : bool :=
  match err with
  | None => false
  | Some e =>
      match As_awserr e with
      | Some (c, m) => bool_decide (c = code) && strings.Contains m message
      | None => false
      end
  end.

End tfawserr.

(** ** The SDK's EC2 types, with the fields the resource touches *)

Module ec2.

Definition NatGatewayStatePending : string := "pending".
Definition NatGatewayStateFailed : string := "failed".
Definition NatGatewayStateAvailable : string := "available".
Definition NatGatewayStateDeleting : string := "deleting".
Definition NatGatewayStateDeleted : string := "deleted".
Definition ResourceTypeNatgateway : string := "natgateway".

Record Tag := { Key : option string; Value : option string }.

Record TagSpecification := {
  ResourceType : option string;
  TagSpecification_Tags : list (option Tag)
}.

Record NatGatewayAddress := {
  AllocationId : option string;
  NetworkInterfaceId : option string;
  PrivateIp : option string;
  PublicIp : option string
}.

Record NatGateway := {
  ConnectivityType : option string;
  NatGatewayAddresses : list (option NatGatewayAddress);
  NatGatewayId : option string;
  State : option string;
  SubnetId : option string;
  Tags : list (option Tag)
}.

Record CreateNatGatewayInput := {
  CreateNatGatewayInput_AllocationId : option string;
  CreateNatGatewayInput_ConnectivityType : option string;
  CreateNatGatewayInput_SubnetId : option string;
  TagSpecifications : list (option TagSpecification)
}.

Record CreateNatGatewayOutput := {
  CreateNatGatewayOutput_NatGateway : option NatGateway
}.

Record DescribeNatGatewaysInput := { NatGatewayIds : list (option string) }.

Record DescribeNatGatewaysOutput := { NatGateways : list (option NatGateway) }.

Record DeleteNatGatewayInput := {
  DeleteNatGatewayInput_NatGatewayId : option string
}.

Record DeleteNatGatewayOutput := {
  DeleteNatGatewayOutput_NatGatewayId : option string
}.

End ec2.

Module aws.

(** [aws.String(v)]. *)
Definition String (v : string) : option string := Some v.

(** [aws.StringValue(p)]: the empty string for a nil pointer. *)
Definition StringValue (p : option string) : string :=
  match p with
  | Some v => v
  | None => ""
  end.

End aws.

(** ** The plugin SDK's resource data *)

Module schema.

Inductive ValueType := TypeString | TypeMap.

(** The value of a field: a string, or a map of strings. *)
Inductive value :=
| VString (s : string)
| VMap (m : gmap string string).

#[global] Instance value_eq_dec : EqDecision value.
Proof. solve_decision. Defined.

(** What the resource hands to [Set]: a [*string], or a
    [map[string]string]. *)
Inductive arg :=
| StringPtr (p : option string)
| StringMap (m : gmap string string).

(** [schema.ResourceData], the tracked state of one resource: its
    identifier, the attributes of the prior state, the planned attributes
    (configuration and diff, laid over the prior state), and the attributes
    written with [Set] during the running call (laid over both).  A key is
    the name of a top-level attribute, and a map attribute is kept and read
    whole: the SDK's flat addresses below an attribute (its count under
    [tags.%], an element under [tags.Name]) are not modelled, so nothing here
    speaks of reading a single element, or of a tag named [%] or [#]. *)
Record ResourceData := {
  rd_id : string;
  rd_state : gmap string value;
  rd_diff : gmap string value;
  rd_set : gmap string value
}.

Definition zero (t : option ValueType) : value :=
  match t with
  | Some TypeMap => VMap ∅
  | _ => VString ""
  end.

Definition isZero (v : value) : bool :=
  match v with
  | VString s => bool_decide (s = "")
  | VMap m => bool_decide (m = ∅)
  end.

Section WithSchema.
Variable sch : gmap string ValueType.

Definition getState (d : ResourceData) (key : string) : value :=
  default (zero (sch !! key)) (rd_state d !! key).

Definition getDiff (d : ResourceData) (key : string) : value :=
  default (getState d key) (rd_diff d !! key).

(** [d.Get(key)]. *)
Definition Get (d : ResourceData) (key : string) : value :=
  default (getDiff d key) (rd_set d !! key).

(** [d.GetOk(key)]: the value, and whether it is set to a non-zero
    value. *)
Definition GetOk (d : ResourceData) (key : string) : value * bool :=
  let v := Get d key in (v, negb (isZero v)).

(** [d.GetChange(key)]: the value before and after the planned change. *)
Definition GetChange (d : ResourceData) (key : string) : value * value :=
  (getState d key, getDiff d key).

(** [d.HasChange(key)]. *)
Definition HasChange (d : ResourceData) (key : string) : bool :=
  let '(o, n) := GetChange d key in negb (bool_decide (n = o)).

(** The value [Set] stores for an argument of the type the field has;
    a nil [*string] is stored as the empty string. *)
Definition convert (t : ValueType) (a : arg) : option value :=
  match t, a with
  | TypeString, StringPtr p => Some (VString (default "" p))
  | TypeMap, StringMap m => Some (VMap m)
  | _, _ => None
  end.

(** The write of [Set]: [v] under [key], over what was written before. *)
Definition write (d : ResourceData) (key : string) (v : value) : ResourceData :=
  {| rd_id := rd_id d; rd_state := rd_state d; rd_diff := rd_diff d;
     rd_set := <[key := v]> (rd_set d) |}.

(** [d.Set(key, value)] ([Set] is taken in Rocq): an error, and no
    change, for a key the schema does not have or a value of another type
    than the field's. *)
Definition Set' (d : ResourceData) (key : string) (a : arg)
  : option error * ResourceData :=
  match sch !! key ≫= (λ t, convert t a) with
  | Some v => (None, write d key v)
  | None => (Some (errors_New ("Invalid address to set: " ++ key)), d)
  end.

(** The values of [d] have the types of the schema, as the SDK's readers
    see to. *)
Definition hasType (key : string) (v : value) : Prop :=
  match sch !! key, v with
  | Some TypeString, VString _ => True
  | Some TypeMap, VMap _ => True
  | _, _ => False
  end.

Definition wellTyped (d : ResourceData) : Prop :=
  map_Forall hasType (rd_state d) ∧ map_Forall hasType (rd_diff d)
  ∧ map_Forall hasType (rd_set d).
End WithSchema.

(** [d.Id()]. *)
Definition Id (d : ResourceData) : string := rd_id d.

(** [d.SetId(v)]. *)
Definition SetId (d : ResourceData) (v : string) : ResourceData :=
  {| rd_id := v; rd_state := rd_state d; rd_diff := rd_diff d;
     rd_set := rd_set d |}.

End schema.

#[global] Instance hasType_dec sch key v : Decision (schema.hasType sch key v).
Proof. unfold schema.hasType. destruct (sch !! key) as [[]|], v; apply _. Defined.

#[global] Instance wellTyped_dec sch d : Decision (schema.wellTyped sch d).
Proof. unfold schema.wellTyped. apply _. Defined.

(** ** Requests, the remote side, and computations *)

(** What goes out to AWS.  The three SDK calls carry their input; the two
    waiters and [UpdateTags], which live in other files of the package and
    make SDK calls of their own, are one request each. *)
Inductive call :=
| CallCreateNatGateway (input : ec2.CreateNatGatewayInput)
| CallDescribeNatGateways (input : ec2.DescribeNatGatewaysInput)
| CallDeleteNatGateway (input : ec2.DeleteNatGatewayInput)
| CallWaitNATGatewayCreated (id : string)
| CallWaitNATGatewayDeleted (id : string)
| CallUpdateTags (identifier : string) (oldTags newTags : schema.value).

(** [*ec2.EC2]: the connection, as the answers of the remote side.  An
    answer may depend on every request sent before (the first argument), so
    the same call can be answered differently at different times. *)
Record EC2 := {
  CreateNatGateway :
    list call -> ec2.CreateNatGatewayInput ->
    option ec2.CreateNatGatewayOutput * option error;
  DescribeNatGateways :
    list call -> ec2.DescribeNatGatewaysInput ->
    option ec2.DescribeNatGatewaysOutput * option error;
  DeleteNatGateway :
    list call -> ec2.DeleteNatGatewayInput ->
    option ec2.DeleteNatGatewayOutput * option error
}.

Inductive panic :=
| IndexOutOfRange (index length : nat)
| NilPointerDereference
| InterfaceConversion.

(** How a Go function ends: it returns, or it panics. *)
Inductive outcome (A : Type) :=
| Returned (a : A)
| Panicked (p : panic).
Arguments Returned {A} a.
Arguments Panicked {A} p.

(** What a call of the resource works on: the resource data [d] it is
    handed, and the requests sent so far. *)
Record World := {
  data : schema.ResourceData;
  sent : list call
}.

Definition Go (A : Type) : Type := World -> outcome A * World.

#[global] Instance Go_ret : MRet Go := λ A a w, (Returned a, w).

#[global] Instance Go_bind : MBind Go := λ A B f m w,
  match m w with
  | (Returned a, w') => f a w'
  | (Panicked p, w') => (Panicked p, w')
  end.

Definition raise {A} (p : panic) : Go A := λ w, (Panicked p, w).

(** [l[i]]. *)
Definition at_index {A} (l : list A) (i : nat) : Go A :=
  match l !! i with
  | Some x => mret x
  | None => raise (IndexOutOfRange i (length l))
  end.

(** [*p], or a field of [p], for a pointer [p]. *)
Definition deref {A} (p : option A) : Go A :=
  match p with
  | Some x => mret x
  | None => raise NilPointerDereference
  end.

(** [v.(string)] and [v.(map[string]interface{})]. *)
Definition assert_string (v : schema.value) : Go string :=
  match v with
  | schema.VString s => mret s
  | schema.VMap _ => raise InterfaceConversion
  end.

Definition assert_map (v : schema.value) : Go (gmap string string) :=
  match v with
  | schema.VMap m => mret m
  | schema.VString _ => raise InterfaceConversion
  end.

(** Reading and changing [d]. *)
Definition reading {A} (f : schema.ResourceData -> A) : Go A :=
  λ w, (Returned (f (data w)), w).

Definition changing {A} (f : schema.ResourceData -> A * schema.ResourceData) : Go A :=
  λ w, let '(a, d') := f (data w) in (Returned a, {| data := d'; sent := sent w |}).

(** Sending [c]: the answer is the remote side's, given what was sent
    before, and [c] joins the requests sent. *)
Definition request {A} (c : call) (answer : list call -> A) : Go A :=
  λ w, (Returned (answer (sent w)), {| data := data w; sent := sent w ++ [c] |}).

(** ** What the file uses from the rest of the provider and from Go

    The tag helpers of [internal/tags] and of the package's generated
    [tags_gen.go], the waiters of [wait.go], the error code of [errors.go],
    and the Unicode tables behind [strings.ToLower].  They are taken as they
    come: every statement below holds for each choice of them. *)
Record Deps := {
  unicodeLower : string -> string;
  ErrCodeNatGatewayNotFound : string;
  tftags_KeyValueTags : Type;
  tftags_DefaultConfig : Type;
  tftags_IgnoreConfig : Type;
  tftags_New : gmap string string -> tftags_KeyValueTags;
  MergeTags : tftags_DefaultConfig -> tftags_KeyValueTags -> tftags_KeyValueTags;
  IgnoreAWS : tftags_KeyValueTags -> tftags_KeyValueTags;
  IgnoreConfig : tftags_KeyValueTags -> tftags_IgnoreConfig -> tftags_KeyValueTags;
  RemoveDefaultConfig : tftags_KeyValueTags -> tftags_DefaultConfig -> tftags_KeyValueTags;
  Map : tftags_KeyValueTags -> gmap string string;
  KeyValueTags : list (option ec2.Tag) -> tftags_KeyValueTags;
  ec2TagSpecificationsFromKeyValueTags :
    tftags_KeyValueTags -> string -> list (option ec2.TagSpecification);
  UpdateTags :
    EC2 -> list call -> string -> schema.value -> schema.value -> option error;
  WaitNATGatewayCreated :
    EC2 -> list call -> string -> option ec2.NatGateway * option error;
  WaitNATGatewayDeleted :
    EC2 -> list call -> string -> option ec2.NatGateway * option error
}.

(** [conns.AWSClient], the [meta] of every call. *)
Record AWSClient (deps : Deps) := {
  EC2Conn : EC2;
  DefaultTagsConfig : tftags_DefaultConfig deps;
  IgnoreTagsConfig : tftags_IgnoreConfig deps
}.
Arguments EC2Conn {deps} _.
Arguments DefaultTagsConfig {deps} _.
Arguments IgnoreTagsConfig {deps} _.

(** ** The resource *)

(** The [Schema] of [ResourceNatGateway], as the type of each field. *)
Definition Schema : gmap string schema.ValueType :=
  list_to_map [
    ("allocation_id", schema.TypeString);
    ("connectivity_type", schema.TypeString);
    ("network_interface_id", schema.TypeString);
    ("private_ip", schema.TypeString);
    ("public_ip", schema.TypeString);
    ("subnet_id", schema.TypeString);
    ("tags", schema.TypeMap);
    ("tags_all", schema.TypeMap)
  ].

(** The [status] map of [resourceNatGatewayRead]. *)
Definition status : gmap string bool :=
  <[ec2.NatGatewayStateDeleted := true]>
    (<[ec2.NatGatewayStateDeleting := true]>
       (<[ec2.NatGatewayStateFailed := true]> ∅)).

Definition isNil {A} (p : option A) : bool :=
  match p with
  | None => true
  | Some _ => false
  end.

(** The methods of [d], on the [d] of the running call. *)
Definition d_Id : Go string := reading schema.Id.

Definition d_SetId (v : string) : Go unit :=
  changing (λ d, (tt, schema.SetId d v)).

Definition d_Get (key : string) : Go schema.value :=
  reading (λ d, schema.Get Schema d key).

Definition d_GetOk (key : string) : Go (schema.value * bool) :=
  reading (λ d, schema.GetOk Schema d key).

Definition d_HasChange (key : string) : Go bool :=
  reading (λ d, schema.HasChange Schema d key).

Definition d_GetChange (key : string) : Go (schema.value * schema.value) :=
  reading (λ d, schema.GetChange Schema d key).

Definition d_Set (key : string) (a : schema.arg) : Go (option error) :=
  changing (λ d, schema.Set' Schema d key a).

(** [if v, ok := d.GetOk(key); ok { field = aws.String(v.(string)) }]:
    the field is left nil otherwise. *)
Definition stringField (key : string) : Go (option string) :=
  '(v, ok) ← d_GetOk key;
  if ok : bool then s ← assert_string v; mret (aws.String s) else mret None.

Section Resource.

Context {deps : Deps}.

(** [NGStateRefreshFunc(conn, id)()]: one probe of the gateway. *)
Definition NGStateRefreshFunc (conn : EC2) (id : string)
  : Go (option ec2.NatGateway * string * option error) :=
  let opts := {| ec2.NatGatewayIds := [aws.String id] |} in
  '(resp, err) ← request (CallDescribeNatGateways opts)
                         (λ h, DescribeNatGateways conn h opts);
  (* [if err != nil]: a not-found error sets [resp = nil] and goes on, any
     other error is returned *)
  let checked : option ec2.DescribeNatGatewaysOutput + error :=
    match err with
    | Some e =>
        if tfawserr.ErrMessageContains err "NatGatewayNotFound" ""
        then inl None
        else inr e
    | None => inl resp
    end in
  match checked with
  | inr e => mret (None, "", Some e)
  | inl None => mret (None, "", None)
  | inl (Some r) =>
      p ← at_index (ec2.NatGateways r) 0;
      ng ← deref p;
      state ← deref (ec2.State ng);
      mret (Some ng, state, None)
  end.

(** [resourceNatGatewayRead(d, meta)]. *)
Definition resourceNatGatewayRead (meta : AWSClient deps) : Go (option error) :=
  let conn := EC2Conn meta in
  let defaultTagsConfig := DefaultTagsConfig meta in
  let ignoreTagsConfig := IgnoreTagsConfig meta in
  id ← d_Id;
  '(ngRaw, state, err) ← NGStateRefreshFunc conn id;
  match err with
  | Some e => mret (Some e)
  | None =>
      let ok := bool_decide
                  (is_Some (status !! strings.ToLower (unicodeLower deps) state)) in
      if isNil ngRaw || ok then
        d_SetId "";;
        mret None
      else
        ng ← match ngRaw with
             | Some ng => mret ng
             | None => raise InterfaceConversion
             end;
        d_Set "connectivity_type" (schema.StringPtr (ec2.ConnectivityType ng));;
        d_Set "subnet_id" (schema.StringPtr (ec2.SubnetId ng));;
        p ← at_index (ec2.NatGatewayAddresses ng) 0;
        address ← deref p;
        d_Set "allocation_id" (schema.StringPtr (ec2.AllocationId address));;
        d_Set "network_interface_id"
              (schema.StringPtr (ec2.NetworkInterfaceId address));;
        d_Set "private_ip" (schema.StringPtr (ec2.PrivateIp address));;
        d_Set "public_ip" (schema.StringPtr (ec2.PublicIp address));;
        let tags := IgnoreConfig deps
                      (IgnoreAWS deps (KeyValueTags deps (ec2.Tags ng)))
                      ignoreTagsConfig in
        err ← d_Set "tags"
                (schema.StringMap
                   (Map deps (RemoveDefaultConfig deps tags defaultTagsConfig)));
        match err with
        | Some e => mret (Some (fmt_Errorf_w "error setting tags: " e))
        | None =>
            err ← d_Set "tags_all" (schema.StringMap (Map deps tags));
            match err with
            | Some e => mret (Some (fmt_Errorf_w "error setting tags_all: " e))
            | None => mret None
            end
        end
  end.

(** [resourceNatGatewayCreate(d, meta)]. *)
Definition resourceNatGatewayCreate (meta : AWSClient deps) : Go (option error) :=
  let conn := EC2Conn meta in
  let defaultTagsConfig := DefaultTagsConfig meta in
  v ← d_Get "tags";
  m ← assert_map v;
  let tags := MergeTags deps defaultTagsConfig (tftags_New deps m) in
  allocationId ← stringField "allocation_id";
  connectivityType ← stringField "connectivity_type";
  subnetId ← stringField "subnet_id";
  let input :=
    {| ec2.CreateNatGatewayInput_AllocationId := allocationId;
       ec2.CreateNatGatewayInput_ConnectivityType := connectivityType;
       ec2.CreateNatGatewayInput_SubnetId := subnetId;
       ec2.TagSpecifications :=
         ec2TagSpecificationsFromKeyValueTags deps tags ec2.ResourceTypeNatgateway |} in
  '(output, err) ← request (CallCreateNatGateway input)
                           (λ h, CreateNatGateway conn h input);
  match err with
  | Some e => mret (Some (fmt_Errorf_w "error creating EC2 NAT Gateway: " e))
  | None =>
      out ← deref output;
      ng ← deref (ec2.CreateNatGatewayOutput_NatGateway out);
      d_SetId (aws.StringValue (ec2.NatGatewayId ng));;
      id ← d_Id;
      '(_, err) ← request (CallWaitNATGatewayCreated id)
                          (λ h, WaitNATGatewayCreated deps conn h id);
      match err with
      | Some e =>
          id ← d_Id;
          mret (Some (fmt_Errorf_w
                        ("error waiting for EC2 NAT Gateway (" ++ id ++ ") create: ") e))
      | None => resourceNatGatewayRead meta
      end
  end.

(** [resourceNatGatewayUpdate(d, meta)]. *)
Definition resourceNatGatewayUpdate (meta : AWSClient deps) : Go (option error) :=
  let conn := EC2Conn meta in
  changed ← d_HasChange "tags_all";
  if changed : bool then
    '(o, n) ← d_GetChange "tags_all";
    id ← d_Id;
    err ← request (CallUpdateTags id o n) (λ h, UpdateTags deps conn h id o n);
    match err with
    | Some e =>
        id ← d_Id;
        mret (Some (errors_New
                      ("error updating EC2 NAT Gateway (" ++ id ++ ") tags: " ++ Error e)))
    | None => resourceNatGatewayRead meta
    end
  else resourceNatGatewayRead meta.

(** [resourceNatGatewayDelete(d, meta)]. *)
Definition resourceNatGatewayDelete (meta : AWSClient deps) : Go (option error) :=
  let conn := EC2Conn meta in
  id ← d_Id;
  let input := {| ec2.DeleteNatGatewayInput_NatGatewayId := aws.String id |} in
  '(_, err) ← request (CallDeleteNatGateway input)
                      (λ h, DeleteNatGateway conn h input);
  if tfawserr.ErrCodeEquals err (ErrCodeNatGatewayNotFound deps) then mret None
  else
    match err with
    | Some e =>
        id ← d_Id;
        mret (Some (fmt_Errorf_w ("error deleting EC2 NAT Gateway (" ++ id ++ "): ") e))
    | None =>
        id ← d_Id;
        '(_, err) ← request (CallWaitNATGatewayDeleted id)
                            (λ h, WaitNATGatewayDeleted deps conn h id);
        match err with
        | Some e =>
            id ← d_Id;
            mret (Some (fmt_Errorf_w
                          ("error waiting for EC2 NAT Gateway (" ++ id ++ ") delete: ") e))
        | None => mret None
        end
    end.

End Resource.

(** ** Notions the statements use *)

(** The code of an error, when it is, or wraps, an [awserr.Error]. *)
Definition errorCode (e : error) : option string := fst <$> tfawserr.As_awserr e.

(** The outcome of a probe of [NGStateRefreshFunc] that found nothing. *)
Definition absent : option ec2.NatGateway * string * option error := (None, "", None).

(** The labels on which [resourceNatGatewayRead] drops the gateway. *)
Definition goneLabels : list string :=
  [ec2.NatGatewayStateDeleted; ec2.NatGatewayStateDeleting; ec2.NatGatewayStateFailed].

(** The run of a computation from [w]: what it sent. *)
Definition sentBy {A} (m : Go A) (w : World) : list call :=
  drop (length (sent w)) (sent (m w).2).

(** The probe request for [id]. *)
Definition probeOf (id : string) : call :=
  CallDescribeNatGateways {| ec2.NatGatewayIds := [aws.String id] |}.

Definition isTagCall (c : call) : bool :=
  match c with
  | CallUpdateTags _ _ _ => true
  | _ => false
  end.

(** What the remote side answers to the Describe call of a probe for [id]
    made from [w]. *)
Definition describeAnswer (conn : EC2) (id : string) (w : World)
  : option ec2.DescribeNatGatewaysOutput * option error :=
  DescribeNatGateways conn (sent w) {| ec2.NatGatewayIds := [aws.String id] |}.

(** The request of [resourceNatGatewayDelete] for the gateway of [d]. *)
Definition deleteInput (d : schema.ResourceData) : ec2.DeleteNatGatewayInput :=
  {| ec2.DeleteNatGatewayInput_NatGatewayId := aws.String (schema.Id d) |}.

Section Notions.

Context {deps : Deps}.

(** A label counts as gone when its lower-case form is one of the three. *)
Definition gone (state : string) : Prop :=
  strings.ToLower (unicodeLower deps) state ∈ goneLabels.

(** The probe [resourceNatGatewayRead] makes from [w]. *)
Definition probe (meta : AWSClient deps) (w : World) :=
  NGStateRefreshFunc (EC2Conn meta) (schema.Id (data w)) w.

(** The attributes [resourceNatGatewayRead] writes for the gateway [ng]
    with [address] as the address it reads. *)
Definition mapped (meta : AWSClient deps) (ng : ec2.NatGateway)
    (address : ec2.NatGatewayAddress) (d : schema.ResourceData)
  : schema.ResourceData :=
  let tags := IgnoreConfig deps (IgnoreAWS deps (KeyValueTags deps (ec2.Tags ng)))
                (IgnoreTagsConfig meta) in
  let str (p : option string) := schema.VString (aws.StringValue p) in
  let d := schema.write d "connectivity_type" (str (ec2.ConnectivityType ng)) in
  let d := schema.write d "subnet_id" (str (ec2.SubnetId ng)) in
  let d := schema.write d "allocation_id" (str (ec2.AllocationId address)) in
  let d := schema.write d "network_interface_id" (str (ec2.NetworkInterfaceId address)) in
  let d := schema.write d "private_ip" (str (ec2.PrivateIp address)) in
  let d := schema.write d "public_ip" (str (ec2.PublicIp address)) in
  let d := schema.write d "tags"
             (schema.VMap (Map deps (RemoveDefaultConfig deps tags (DefaultTagsConfig meta)))) in
  schema.write d "tags_all" (schema.VMap (Map deps tags)).

(** The request [resourceNatGatewayCreate] builds from a [d] whose values
    have the types of the schema: a string field that is empty, and a field
    of another type, give no value. *)
Definition createInput (meta : AWSClient deps) (d : schema.ResourceData)
  : ec2.CreateNatGatewayInput :=
  let field (key : string) : option string :=
    match schema.Get Schema d key with
    | schema.VString s => if bool_decide (s = "") then None else Some s
    | schema.VMap _ => None
    end in
  let m := match schema.Get Schema d "tags" with
           | schema.VMap m => m
           | schema.VString _ => ∅
           end in
  {| ec2.CreateNatGatewayInput_AllocationId := field "allocation_id";
     ec2.CreateNatGatewayInput_ConnectivityType := field "connectivity_type";
     ec2.CreateNatGatewayInput_SubnetId := field "subnet_id";
     ec2.TagSpecifications :=
       ec2TagSpecificationsFromKeyValueTags deps
         (MergeTags deps (DefaultTagsConfig meta) (tftags_New deps m))
         ec2.ResourceTypeNatgateway |}.

(** The reading of the sentence on Read that takes the labels as they
    are written: a probe without error that finds nothing, or a gateway
    whose label is one of the three, ends in the identifier cleared and no
    error; every other probe without error ends in the gateway written to
    [d] and no error. *)
Definition readsAsWritten (meta : AWSClient deps) (w : World) : Prop :=
  ∀ ngRaw state w',
    NGStateRefreshFunc (EC2Conn meta) (schema.Id (data w)) w
      = (Returned (ngRaw, state, None), w') →
    (ngRaw = None ∨ state ∈ goneLabels →
       resourceNatGatewayRead meta w
       = (Returned None, {| data := schema.SetId (data w) ""; sent := sent w' |}))
    ∧ (∀ ng, ngRaw = Some ng → state ∉ goneLabels →
         ∃ address,
           resourceNatGatewayRead meta w
           = (Returned None,
              {| data := mapped meta ng address (data w); sent := sent w' |})).

(** The reading of the sentence on Update as it is written: the run
    sends tagging requests only, and writes no attribute. *)
Definition updatesAsWritten (meta : AWSClient deps) (w : World) : Prop :=
  forallb isTagCall (sentBy (resourceNatGatewayUpdate meta) w) = true
  ∧ data (resourceNatGatewayUpdate meta w).2 = data w.

End Notions.
Arguments gone deps state : clear implicits.

(** ** Concrete gateways, connections and resource data *)

Module Fixture.

(** Tag helpers that keep every tag, a default configuration that adds
    none, and waiters and a tagging call that answer [waitError] and
    [tagError]. *)
Definition deps (waitError tagError : option error) : Deps :=
  {| unicodeLower := λ s, s;
     ErrCodeNatGatewayNotFound := "NatGatewayNotFound";
     tftags_KeyValueTags := gmap string string;
     tftags_DefaultConfig := unit;
     tftags_IgnoreConfig := unit;
     tftags_New := λ m, m;
     MergeTags := λ _ t, t;
     IgnoreAWS := λ t, t;
     IgnoreConfig := λ t _, t;
     RemoveDefaultConfig := λ t _, t;
     Map := λ t, t;
     KeyValueTags := λ l,
       list_to_map (omap (λ t : option ec2.Tag,
                            t ≫= λ t, k ← ec2.Key t; Some (k, aws.StringValue (ec2.Value t))) l);
     ec2TagSpecificationsFromKeyValueTags := λ t r,
       [Some {| ec2.ResourceType := Some r;
                ec2.TagSpecification_Tags :=
                  (λ kv, Some {| ec2.Key := Some kv.1; ec2.Value := Some kv.2 |})
                    <$> map_to_list t |}];
     UpdateTags := λ _ _ _ _ _, tagError;
     WaitNATGatewayCreated := λ _ _ _, (None, waitError);
     WaitNATGatewayDeleted := λ _ _ _, (None, waitError) |}.

Definition address : ec2.NatGatewayAddress :=
  {| ec2.AllocationId := Some "eipalloc-1";
     ec2.NetworkInterfaceId := Some "eni-1";
     ec2.PrivateIp := Some "10.0.0.5";
     ec2.PublicIp := Some "203.0.113.7" |}.

Definition gateway (state : string) (addresses : list (option ec2.NatGatewayAddress))
  : ec2.NatGateway :=
  {| ec2.ConnectivityType := Some "public";
     ec2.NatGatewayAddresses := addresses;
     ec2.NatGatewayId := Some "nat-1";
     ec2.State := Some state;
     ec2.SubnetId := Some "subnet-1";
     ec2.Tags := [Some {| ec2.Key := Some "Name"; ec2.Value := Some "egress" |}] |}.

(** A connection that gives the same three answers whatever was sent. *)
Definition answering
    (create : option ec2.CreateNatGatewayOutput * option error)
    (describe : option ec2.DescribeNatGatewaysOutput * option error)
    (delete : option ec2.DeleteNatGatewayOutput * option error) : EC2 :=
  {| CreateNatGateway := λ _ _, create;
     DescribeNatGateways := λ _ _, describe;
     DeleteNatGateway := λ _ _, delete |}.

(** A connection on which Describe gives [describe]; Create gives the
    gateway [nat-1], Delete succeeds. *)
Definition describing (describe : option ec2.DescribeNatGatewaysOutput * option error)
  : EC2 :=
  answering
    (Some {| ec2.CreateNatGatewayOutput_NatGateway := Some (gateway "pending" []) |}, None)
    describe
    (Some {| ec2.DeleteNatGatewayOutput_NatGatewayId := Some "nat-1" |}, None).

Definition found (ng : ec2.NatGateway)
  : option ec2.DescribeNatGatewaysOutput * option error :=
  (Some {| ec2.NatGateways := [Some ng] |}, None).

Definition meta {waitError tagError} (conn : EC2) : AWSClient (deps waitError tagError) :=
  {| EC2Conn := conn; DefaultTagsConfig := tt : tftags_DefaultConfig (deps _ _);
     IgnoreTagsConfig := tt : tftags_IgnoreConfig (deps _ _) |}.

Definition notFound : error :=
  awserr_New "NatGatewayNotFound" "The Nat gateway nat-1 was not found".

Definition throttled : error := awserr_New "RequestLimitExceeded" "Request limit exceeded.".

Definition timeout : error := errors_New "timeout while waiting for state to become 'available'".

(** The data of the tracked gateway [nat-1], as planned: a subnet, and
    the tag [Name] going from [egress] to [nat]. *)
Definition d : schema.ResourceData :=
  {| schema.rd_id := "nat-1";
     schema.rd_state :=
       {[ "subnet_id" := schema.VString "subnet-0";
          "tags_all" := schema.VMap {[ "Name" := "egress" ]} ]};
     schema.rd_diff :=
       {[ "subnet_id" := schema.VString "subnet-0";
          "connectivity_type" := schema.VString "public";
          "tags" := schema.VMap {[ "Name" := "nat" ]};
          "tags_all" := schema.VMap {[ "Name" := "nat" ]} ]};
     schema.rd_set := ∅ |}.

Definition w : World := {| data := d; sent := [] |}.

(** An available gateway with its address, the same gateway without any
    address, and a deleted gateway. *)
Definition live : ec2.NatGateway := gateway "available" [Some address].
Definition bare : ec2.NatGateway := gateway "available" [].
Definition deleted : ec2.NatGateway := gateway "deleted" [Some address].

(** A gateway with an address whose label comes in capitals. *)
Definition capitals : ec2.NatGateway := gateway "DELETED" [Some address].

(** The tracked gateway [nat-1] again, with attributes of an earlier
    refresh written and two requests already sent. *)
Definition stale : World :=
  {| data :=
       schema.write
         (schema.write (schema.write d "public_ip" (schema.VString "198.51.100.9"))
            "subnet_id" (schema.VString "subnet-9"))
         "tags_all" (schema.VMap {[ "Name" := "old"; "Team" := "net" ]});
     sent := [CallWaitNATGatewayCreated "nat-1"; probeOf "nat-1"] |}.

(** A client on which waiters and tagging succeed, and Describe finds
    [ng]. *)
Definition finding (ng : ec2.NatGateway) : AWSClient (deps None None) :=
  meta (describing (found ng)).

End Fixture.

(** ** Notions of the further properties *)

(** The attributes [resourceNatGatewayRead] writes for a gateway. *)
Definition writtenKeys : list string :=
  ["connectivity_type"; "subnet_id"; "allocation_id"; "network_interface_id";
   "private_ip"; "public_ip"; "tags"; "tags_all"].

(** The two attributes [resourceNatGatewayRead] writes before it reads the
    address of the gateway. *)
Definition writtenFirst (ng : ec2.NatGateway) (d : schema.ResourceData)
  : schema.ResourceData :=
  schema.write
    (schema.write d "connectivity_type"
       (schema.VString (aws.StringValue (ec2.ConnectivityType ng))))
    "subnet_id" (schema.VString (aws.StringValue (ec2.SubnetId ng))).

(** Whether a probe can read its gateway and label off the response. *)
Definition unreadable (r : ec2.DescribeNatGatewaysOutput) : Prop :=
  match ec2.NatGateways r with
  | [] => True
  | None :: _ => True
  | Some ng :: _ => ec2.State ng = None
  end.

(** Whether the address list of a gateway starts with an address. *)
Definition addressless (ng : ec2.NatGateway) : Prop :=
  match ec2.NatGatewayAddresses ng with
  | [] => True
  | None :: _ => True
  | Some _ :: _ => False
  end.

(** ** Running a computation in a proof *)

#[global] Arguments tfawserr.ErrMessageContains : simpl never.
#[global] Arguments tfawserr.ErrCodeEquals : simpl never.
#[global] Arguments strings.ToLower : simpl never.
#[global] Arguments schema.Get : simpl never.
#[global] Arguments schema.GetOk : simpl never.
#[global] Arguments schema.GetChange : simpl never.
#[global] Arguments schema.HasChange : simpl never.
#[global] Arguments schema.Set' : simpl never.
#[global] Arguments schema.write : simpl never.
#[global] Arguments schema.SetId : simpl never.

#[global] Arguments resourceNatGatewayRead : simpl never.

Ltac run :=
  unfold d_Id, d_SetId, d_Get, d_GetOk, d_HasChange, d_GetChange, d_Set,
    at_index, deref, assert_string, assert_map, request, reading, changing,
    raise, mbind, mret, Go_bind, Go_ret; simpl.

(** ** Errors and labels *)

Lemma Contains_empty (s : string) : strings.Contains s "" = true.
Proof. unfold strings.Contains. destruct s; reflexivity. Qed.

Lemma ErrMessageContains_code (e : error) (code : string) :
  tfawserr.ErrMessageContains (Some e) code "" = bool_decide (errorCode e = Some code).
Proof.
  unfold tfawserr.ErrMessageContains, errorCode.
  destruct (tfawserr.As_awserr e) as [[c m]|]; simpl.
  - rewrite Contains_empty, andb_true_r.
    apply bool_decide_ext. split; intros; congruence.
  - done.
Qed.

Lemma ErrCodeEquals_code (e : error) (code : string) :
  tfawserr.ErrCodeEquals (Some e) code = bool_decide (errorCode e = Some code).
Proof.
  unfold tfawserr.ErrCodeEquals, errorCode.
  destruct (tfawserr.As_awserr e) as [[c m]|]; simpl.
  - apply bool_decide_ext. split; intros; congruence.
  - done.
Qed.

Lemma status_goneLabels (label : string) :
  is_Some (status !! label) ↔ label ∈ goneLabels.
Proof.
  unfold status, goneLabels. rewrite !lookup_insert, lookup_empty.
  rewrite !elem_of_cons, elem_of_nil.
  repeat case_decide; subst; split; intros Hl; eauto.
  - by destruct Hl.
  - destruct Hl as [?|[?|[?|[]]]]; congruence.
Qed.

Lemma goneLabels_gone (deps : Deps) (state : string) :
  state ∈ goneLabels → gone deps state.
Proof.
  unfold gone, goneLabels. rewrite !elem_of_cons, elem_of_nil.
  intros [->|[->|[->|[]]]]; vm_compute; auto.
Qed.

(** ** The probe *)

Section Probe.

Implicit Types (conn : EC2) (id : string) (w : World).

(** A probe sends its one Describe request and leaves [d] alone, however
    it ends. *)
Lemma NGStateRefreshFunc_world conn id w :
  (NGStateRefreshFunc conn id w).2
  = {| data := data w; sent := sent w ++ [probeOf id] |}.
Proof.
  unfold NGStateRefreshFunc, probeOf. run.
  destruct (DescribeNatGateways _ _ _) as [resp [e|]]; simpl.
  - destruct (tfawserr.ErrMessageContains (Some e) _ _); reflexivity.
  - destruct resp as [[gws]|]; simpl; [|reflexivity].
    destruct gws as [|[ng|] gws]; simpl; try reflexivity.
    destruct (ec2.State ng); reflexivity.
Qed.

Lemma NGStateRefreshFunc_error conn id w resp e :
  describeAnswer conn id w = (resp, Some e) →
  errorCode e ≠ Some "NatGatewayNotFound" →
  (NGStateRefreshFunc conn id w).1 = Returned (None, "", Some e).
Proof.
  unfold describeAnswer. intros Hans Hcode.
  unfold NGStateRefreshFunc. run. rewrite Hans. simpl.
  rewrite ErrMessageContains_code, bool_decide_eq_false_2 by done.
  reflexivity.
Qed.

Lemma NGStateRefreshFunc_not_found conn id w resp e :
  describeAnswer conn id w = (resp, Some e) →
  errorCode e = Some "NatGatewayNotFound" →
  (NGStateRefreshFunc conn id w).1 = Returned absent.
Proof.
  unfold describeAnswer. intros Hans Hcode.
  unfold NGStateRefreshFunc. run. rewrite Hans. simpl.
  rewrite ErrMessageContains_code, bool_decide_eq_true_2 by done.
  reflexivity.
Qed.

Lemma NGStateRefreshFunc_nil conn id w :
  describeAnswer conn id w = (None, None) →
  (NGStateRefreshFunc conn id w).1 = Returned absent.
Proof.
  unfold describeAnswer. intros Hans.
  unfold NGStateRefreshFunc. run. rewrite Hans. reflexivity.
Qed.

Lemma NGStateRefreshFunc_empty conn id w r :
  describeAnswer conn id w = (Some r, None) →
  ec2.NatGateways r = [] →
  (NGStateRefreshFunc conn id w).1 = Panicked (IndexOutOfRange 0 0).
Proof.
  unfold describeAnswer. intros Hans Hgws.
  unfold NGStateRefreshFunc. run. rewrite Hans. simpl. rewrite Hgws. reflexivity.
Qed.

(** A probe that returns a gateway returns the first one of the answer,
    with its label, and no error. *)
Lemma NGStateRefreshFunc_found conn id w r ng rest state :
  describeAnswer conn id w = (Some r, None) →
  ec2.NatGateways r = Some ng :: rest →
  ec2.State ng = Some state →
  (NGStateRefreshFunc conn id w).1 = Returned (Some ng, state, None).
Proof.
  unfold describeAnswer. intros Hans Hgws Hstate.
  unfold NGStateRefreshFunc. run. rewrite Hans. simpl. rewrite Hgws. simpl.
  rewrite Hstate. reflexivity.
Qed.

(** C5: when the Describe call of a probe fails with an error whose code is
    not the not-found code (an error without a code, such as a transport
    failure, included), the probe returns that very error, with no gateway
    and an empty label, and this is not the absent outcome. *)
Theorem NGStateRefreshFunc_propagates_other_errors conn id w resp e :
  describeAnswer conn id w = (resp, Some e) →
  errorCode e ≠ Some "NatGatewayNotFound" →
  NGStateRefreshFunc conn id w
  = (Returned (None, "", Some e), {| data := data w; sent := sent w ++ [probeOf id] |})
  ∧ (None, "", Some e) ≠ absent.
Proof.
  intros Hans Hcode. split; [|discriminate].
  rewrite (surjective_pairing (NGStateRefreshFunc conn id w)).
  rewrite NGStateRefreshFunc_world.
  by rewrite (NGStateRefreshFunc_error _ _ _ _ _ Hans Hcode).
Qed.

(** C8: the probe on a Describe call that fails with the not-found code,
    against the probe on the two responses without a gateway.  On the error
    the probe returns no gateway, the empty label and no error, and on a nil
    response the run is the same.  On a response that holds an empty list
    the probe does not return: it panics on the index [0], so the caller can
    tell an empty response from a not-found error. *)
Theorem NGStateRefreshFunc_not_found_unlike_empty conn conn' conn'' id w resp e r :
  describeAnswer conn id w = (resp, Some e) →
  errorCode e = Some "NatGatewayNotFound" →
  describeAnswer conn' id w = (None, None) →
  describeAnswer conn'' id w = (Some r, None) →
  ec2.NatGateways r = [] →
  (NGStateRefreshFunc conn id w).1 = Returned (None, "", None)
  ∧ NGStateRefreshFunc conn' id w = NGStateRefreshFunc conn id w
  ∧ (NGStateRefreshFunc conn'' id w).1 = Panicked (IndexOutOfRange 0 0)
  ∧ NGStateRefreshFunc conn'' id w ≠ NGStateRefreshFunc conn id w.
Proof.
  intros Hans Hcode Hnil Hempty Hgws.
  pose proof (NGStateRefreshFunc_not_found _ _ _ _ _ Hans Hcode) as H1.
  pose proof (NGStateRefreshFunc_nil _ _ _ Hnil) as H2.
  pose proof (NGStateRefreshFunc_empty _ _ _ _ Hempty Hgws) as H3.
  split; [exact H1|]. split; [|split; [exact H3|]].
  - rewrite (surjective_pairing (NGStateRefreshFunc conn id w)).
    rewrite (surjective_pairing (NGStateRefreshFunc conn' id w)).
    by rewrite H1, H2, !NGStateRefreshFunc_world.
  - intros Heq. apply (f_equal fst) in Heq. rewrite H1, H3 in Heq. discriminate.
Qed.

(** C6: a probe whose Describe call succeeds with a response that holds an
    empty list of gateways.  The probe does not return the absent outcome: it
    panics on the index [0] of the list, having sent its request. *)
Theorem NGStateRefreshFunc_empty_list_panics conn id w r :
  describeAnswer conn id w = (Some r, None) →
  ec2.NatGateways r = [] →
  NGStateRefreshFunc conn id w
  = (Panicked (IndexOutOfRange 0 0), {| data := data w; sent := sent w ++ [probeOf id] |})
  ∧ (NGStateRefreshFunc conn id w).1 ≠ Returned absent.
Proof.
  intros Hans Hgws.
  pose proof (NGStateRefreshFunc_empty _ _ _ _ Hans Hgws) as Hpanic.
  split.
  - rewrite (surjective_pairing (NGStateRefreshFunc conn id w)).
    by rewrite Hpanic, NGStateRefreshFunc_world.
  - rewrite Hpanic. discriminate.
Qed.

End Probe.

Lemma NGStateRefreshFunc_propagates_other_errors_witness :
  NGStateRefreshFunc (Fixture.describing (None, Some Fixture.throttled)) "nat-1" Fixture.w
  = (Returned (None, "", Some Fixture.throttled),
     {| data := Fixture.d; sent := [probeOf "nat-1"] |})
  ∧ (None, "", Some Fixture.throttled) ≠ absent.
Proof.
  apply (NGStateRefreshFunc_propagates_other_errors
           (Fixture.describing (None, Some Fixture.throttled)) "nat-1" Fixture.w
           None Fixture.throttled eq_refl).
  vm_compute. discriminate.
Defined.

Lemma NGStateRefreshFunc_not_found_unlike_empty_witness :
  let notFound := Fixture.describing (None, Some Fixture.notFound) in
  let nilResponse := Fixture.describing (None, None) in
  let emptyList := Fixture.describing (Some {| ec2.NatGateways := [] |}, None) in
  (NGStateRefreshFunc notFound "nat-1" Fixture.w).1 = Returned (None, "", None)
  ∧ NGStateRefreshFunc nilResponse "nat-1" Fixture.w
    = NGStateRefreshFunc notFound "nat-1" Fixture.w
  ∧ (NGStateRefreshFunc emptyList "nat-1" Fixture.w).1 = Panicked (IndexOutOfRange 0 0)
  ∧ NGStateRefreshFunc emptyList "nat-1" Fixture.w
    ≠ NGStateRefreshFunc notFound "nat-1" Fixture.w.
Proof.
  intros notFound nilResponse emptyList.
  apply (NGStateRefreshFunc_not_found_unlike_empty notFound nilResponse emptyList
           "nat-1" Fixture.w None Fixture.notFound {| ec2.NatGateways := [] |}
           eq_refl eq_refl eq_refl eq_refl eq_refl).
Defined.

Lemma NGStateRefreshFunc_empty_list_panics_witness :
  NGStateRefreshFunc
    (Fixture.describing (Some {| ec2.NatGateways := [] |}, None)) "nat-1" Fixture.w
  = (Panicked (IndexOutOfRange 0 0), {| data := Fixture.d; sent := [probeOf "nat-1"] |})
  ∧ (NGStateRefreshFunc
       (Fixture.describing (Some {| ec2.NatGateways := [] |}, None)) "nat-1" Fixture.w).1
    ≠ Returned absent.
Proof.
  apply (NGStateRefreshFunc_empty_list_panics
           (Fixture.describing (Some {| ec2.NatGateways := [] |}, None)) "nat-1" Fixture.w
           {| ec2.NatGateways := [] |} eq_refl eq_refl).
Defined.

(** ** Read *)

Lemma Set'_string (d : schema.ResourceData) (key : string) (p : option string) :
  Schema !! key = Some schema.TypeString →
  schema.Set' Schema d key (schema.StringPtr p)
  = (None, schema.write d key (schema.VString (aws.StringValue p))).
Proof.
  intros Hkey. unfold schema.Set'. rewrite Hkey. simpl. by destruct p.
Qed.

Lemma Set'_map (d : schema.ResourceData) (key : string) (m : gmap string string) :
  Schema !! key = Some schema.TypeMap →
  schema.Set' Schema d key (schema.StringMap m) = (None, schema.write d key (schema.VMap m)).
Proof. intros Hkey. unfold schema.Set'. by rewrite Hkey. Qed.

Section Read.

Context {deps : Deps}.
Implicit Types (meta : AWSClient deps) (w : World).

Lemma probe_world meta w r w' :
  probe meta w = (r, w') →
  w' = {| data := data w; sent := sent w ++ [probeOf (schema.Id (data w))] |}.
Proof.
  unfold probe. intros H.
  pose proof (NGStateRefreshFunc_world (EC2Conn meta) (schema.Id (data w)) w) as Hw.
  by rewrite H in Hw.
Qed.

Lemma Read_error meta w ngRaw state e w' :
  probe meta w = (Returned (ngRaw, state, Some e), w') →
  resourceNatGatewayRead meta w = (Returned (Some e), w').
Proof.
  unfold probe. intros H. unfold resourceNatGatewayRead. run. by rewrite H.
Qed.

Lemma Read_absent meta w ngRaw state w' :
  probe meta w = (Returned (ngRaw, state, None), w') →
  ngRaw = None ∨ gone deps state →
  resourceNatGatewayRead meta w
  = (Returned None, {| data := schema.SetId (data w) ""; sent := sent w' |}).
Proof.
  intros H Habs. pose proof (probe_world _ _ _ _ H) as ->.
  unfold probe in H. unfold resourceNatGatewayRead. run. rewrite H. simpl.
  assert (isNil ngRaw
          || bool_decide (is_Some (status !! strings.ToLower (unicodeLower deps) state))
          = true) as ->; [|reflexivity].
  destruct Habs as [->|Hgone]; [reflexivity|].
  rewrite bool_decide_eq_true_2, orb_true_r; [done|].
  by apply status_goneLabels.
Qed.

Lemma Read_mapped meta w ng state w' address rest :
  probe meta w = (Returned (Some ng, state, None), w') →
  ¬ gone deps state →
  ec2.NatGatewayAddresses ng = Some address :: rest →
  resourceNatGatewayRead meta w
  = (Returned None, {| data := mapped meta ng address (data w); sent := sent w' |}).
Proof.
  intros H Hlive Haddr. pose proof (probe_world _ _ _ _ H) as ->.
  unfold probe in H. unfold resourceNatGatewayRead. run. rewrite H. simpl.
  rewrite bool_decide_eq_false_2 by (by rewrite status_goneLabels). simpl.
  rewrite Haddr. simpl.
  rewrite !Set'_string by reflexivity. simpl.
  rewrite Set'_map by reflexivity. simpl.
  rewrite Set'_map by reflexivity. reflexivity.
Qed.

(** With no address in the list, or a nil first gateway address, the
    mapping panics after the first two attributes are written. *)
Lemma Read_no_address meta w ng state w' :
  probe meta w = (Returned (Some ng, state, None), w') →
  ¬ gone deps state →
  ec2.NatGatewayAddresses ng = [] →
  (resourceNatGatewayRead meta w).1 = Panicked (IndexOutOfRange 0 0).
Proof.
  intros H Hlive Haddr.
  unfold probe in H. unfold resourceNatGatewayRead. run. rewrite H. simpl.
  rewrite bool_decide_eq_false_2 by (by rewrite status_goneLabels). simpl.
  rewrite Haddr. simpl.
  rewrite !Set'_string by reflexivity. reflexivity.
Qed.

(** C3: Read on a gateway that is not gone and has an empty address list.
    The run does not return an error, of any kind: it panics on the index
    [0] of the list, with the first two attributes already written. *)
Theorem Read_no_address_panics meta w ng state w' :
  probe meta w = (Returned (Some ng, state, None), w') →
  ¬ gone deps state →
  ec2.NatGatewayAddresses ng = [] →
  (resourceNatGatewayRead meta w).1 = Panicked (IndexOutOfRange 0 0)
  ∧ (∀ e, (resourceNatGatewayRead meta w).1 ≠ Returned (Some e))
  ∧ data (resourceNatGatewayRead meta w).2
    = schema.write
        (schema.write (data w) "connectivity_type"
           (schema.VString (aws.StringValue (ec2.ConnectivityType ng))))
        "subnet_id" (schema.VString (aws.StringValue (ec2.SubnetId ng))).
Proof.
  intros H Hlive Haddr.
  pose proof (Read_no_address _ _ _ _ _ H Hlive Haddr) as Hpanic.
  split; [exact Hpanic|]. split.
  - intros e. rewrite Hpanic. discriminate.
  - pose proof (probe_world _ _ _ _ H) as ->.
    unfold probe in H. unfold resourceNatGatewayRead. run. rewrite H. simpl.
    rewrite bool_decide_eq_false_2 by (by rewrite status_goneLabels). simpl.
    rewrite Haddr. simpl.
    rewrite !Set'_string by reflexivity. reflexivity.
Qed.

(** C9: when the probe of Read returns an error, Read returns that same
    error, and the resource data, identifier and attributes, is what it was
    before the call. *)
Theorem Read_propagates_probe_error meta w ngRaw state e w' :
  probe meta w = (Returned (ngRaw, state, Some e), w') →
  (resourceNatGatewayRead meta w).1 = Returned (Some e)
  ∧ data (resourceNatGatewayRead meta w).2 = data w.
Proof.
  intros H. rewrite (Read_error _ _ _ _ _ _ H). simpl.
  by rewrite (probe_world _ _ _ _ H).
Qed.

(** C10: when Read reports the gateway absent (the probe found none, or
    found one in a gone state), the resource data after the call is the
    data before it with the identifier set to the empty string: prior
    state, planned attributes and written attributes are the same maps. *)
Theorem Read_absent_only_clears_id meta w ngRaw state w' :
  probe meta w = (Returned (ngRaw, state, None), w') →
  ngRaw = None ∨ gone deps state →
  let d' := data (resourceNatGatewayRead meta w).2 in
  d' = schema.SetId (data w) ""
  ∧ schema.rd_id d' = ""
  ∧ schema.rd_state d' = schema.rd_state (data w)
  ∧ schema.rd_diff d' = schema.rd_diff (data w)
  ∧ schema.rd_set d' = schema.rd_set (data w)
  ∧ ∀ key, schema.Get Schema d' key = schema.Get Schema (data w) key.
Proof.
  intros H Habs. rewrite (Read_absent _ _ _ _ _ H Habs). simpl.
  repeat split; reflexivity.
Qed.

(** C1, amended: after a probe without error, Read clears the identifier
    and returns no error when the probe found no gateway or found one whose
    label is, in lower case, deleted, deleting or failed; for every other
    gateway whose address list starts with an address, Read writes the
    gateway to the resource data (first address, tags) and returns no
    error. *)
Theorem Read_absent_or_mapped meta w ngRaw state w' :
  probe meta w = (Returned (ngRaw, state, None), w') →
  (ngRaw = None ∨ gone deps state →
     resourceNatGatewayRead meta w
     = (Returned None, {| data := schema.SetId (data w) ""; sent := sent w' |}))
  ∧ (∀ ng address rest,
       ngRaw = Some ng → ¬ gone deps state →
       ec2.NatGatewayAddresses ng = Some address :: rest →
       resourceNatGatewayRead meta w
       = (Returned None, {| data := mapped meta ng address (data w); sent := sent w' |})).
Proof.
  intros H. split.
  - intros Habs. exact (Read_absent _ _ _ _ _ H Habs).
  - intros ng address rest -> Hlive Haddr.
    exact (Read_mapped _ _ _ _ _ _ _ H Hlive Haddr).
Qed.

End Read.

(** ** Read on concrete gateways *)

Lemma Read_propagates_probe_error_witness :
  let meta : AWSClient (Fixture.deps None None) :=
    Fixture.meta (Fixture.describing (None, Some Fixture.throttled)) in
  (resourceNatGatewayRead meta Fixture.w).1 = Returned (Some Fixture.throttled)
  ∧ data (resourceNatGatewayRead meta Fixture.w).2 = Fixture.d.
Proof.
  intros meta.
  apply (Read_propagates_probe_error meta Fixture.w None "" Fixture.throttled
           {| data := Fixture.d; sent := [probeOf "nat-1"] |} eq_refl).
Defined.

Lemma Read_absent_only_clears_id_witness :
  let d' := data (resourceNatGatewayRead (Fixture.finding Fixture.deleted) Fixture.w).2 in
  d' = schema.SetId Fixture.d ""
  ∧ schema.rd_id d' = ""
  ∧ schema.rd_state d' = schema.rd_state Fixture.d
  ∧ schema.rd_diff d' = schema.rd_diff Fixture.d
  ∧ schema.rd_set d' = schema.rd_set Fixture.d
  ∧ ∀ key, schema.Get Schema d' key = schema.Get Schema Fixture.d key.
Proof.
  apply (Read_absent_only_clears_id (Fixture.finding Fixture.deleted) Fixture.w
           (Some Fixture.deleted) "deleted"
           {| data := Fixture.d; sent := [probeOf "nat-1"] |} eq_refl).
  right. apply goneLabels_gone. apply list_elem_of_here.
Defined.

Lemma available_not_gone : ¬ gone (Fixture.deps None None) "available".
Proof.
  unfold gone, goneLabels. vm_compute. intros H.
  repeat (apply elem_of_cons in H as [H|H]; [discriminate|]).
  by apply elem_of_nil in H.
Qed.

Lemma Read_absent_or_mapped_witness :
  probe (Fixture.finding Fixture.live) Fixture.w
  = (Returned (Some Fixture.live, "available", None),
     {| data := Fixture.d; sent := [probeOf "nat-1"] |})
  ∧ resourceNatGatewayRead (Fixture.finding Fixture.live) Fixture.w
    = (Returned None,
       {| data := mapped (Fixture.finding Fixture.live) Fixture.live Fixture.address Fixture.d;
          sent := [probeOf "nat-1"] |})
  ∧ resourceNatGatewayRead (Fixture.finding Fixture.deleted) Fixture.w
    = (Returned None,
       {| data := schema.SetId Fixture.d ""; sent := [probeOf "nat-1"] |}).
Proof.
  split; [reflexivity|]. split.
  - apply (proj2 (Read_absent_or_mapped (Fixture.finding Fixture.live) Fixture.w
                    (Some Fixture.live) "available"
                    {| data := Fixture.d; sent := [probeOf "nat-1"] |} eq_refl)
             Fixture.live Fixture.address [] eq_refl available_not_gone eq_refl).
  - apply (proj1 (Read_absent_or_mapped (Fixture.finding Fixture.deleted) Fixture.w
                    (Some Fixture.deleted) "deleted"
                    {| data := Fixture.d; sent := [probeOf "nat-1"] |} eq_refl)).
    right. apply goneLabels_gone. apply list_elem_of_here.
Defined.

(** The sentence of C1 as it is written fails on two gateways.  One has
    an address and the label DELETED, which is none of the three labels as
    they are written: Read clears the identifier and writes nothing.  The
    other is available and comes without an address: Read does not end in the
    gateway written to the resource data. *)
Lemma Read_as_written_fails :
  ¬ readsAsWritten (Fixture.finding Fixture.capitals) Fixture.w
  ∧ ¬ readsAsWritten (Fixture.finding Fixture.bare) Fixture.w.
Proof.
  assert (∀ state, state ≠ "deleted" → state ≠ "deleting" → state ≠ "failed" →
            state ∉ goneLabels) as Hother.
  { intros state H1 H2 H3 Hin. unfold goneLabels in Hin.
    rewrite !elem_of_cons, elem_of_nil in Hin.
    destruct Hin as [->|[->|[->|[]]]]; [apply H1|apply H2|apply H3]; reflexivity. }
  split; intros H.
  - destruct (H (Some Fixture.capitals) "DELETED"
                {| data := Fixture.d; sent := [probeOf "nat-1"] |} eq_refl) as [_ Hlive].
    destruct (Hlive Fixture.capitals eq_refl) as [address Hmapped];
      [by apply Hother|].
    apply (f_equal (λ r, schema.rd_id (data r.2))) in Hmapped.
    vm_compute in Hmapped. discriminate.
  - destruct (H (Some Fixture.bare) "available"
                {| data := Fixture.d; sent := [probeOf "nat-1"] |} eq_refl) as [_ Hlive].
    destruct (Hlive Fixture.bare eq_refl) as [address Hmapped];
      [by apply Hother|].
    apply (f_equal fst) in Hmapped. vm_compute in Hmapped. discriminate.
Qed.

Lemma Read_no_address_panics_witness :
  (resourceNatGatewayRead (Fixture.finding Fixture.bare) Fixture.w).1
  = Panicked (IndexOutOfRange 0 0)
  ∧ (∀ e, (resourceNatGatewayRead (Fixture.finding Fixture.bare) Fixture.w).1
          ≠ Returned (Some e))
  ∧ data (resourceNatGatewayRead (Fixture.finding Fixture.bare) Fixture.w).2
    = schema.write
        (schema.write Fixture.d "connectivity_type" (schema.VString "public"))
        "subnet_id" (schema.VString "subnet-1").
Proof.
  apply (Read_no_address_panics (Fixture.finding Fixture.bare) Fixture.w Fixture.bare
           "available" {| data := Fixture.d; sent := [probeOf "nat-1"] |}
           eq_refl available_not_gone eq_refl).
Defined.

(** ** Delete *)

(** What a run sent, from the requests it ends with. *)
Lemma sentBy_app {A} (m : Go A) (w : World) (l : list call) :
  sent (m w).2 = (sent w ++ l)%list → sentBy m w = l.
Proof. unfold sentBy. intros ->. by rewrite drop_app_length. Qed.

Section Delete.

Context {deps : Deps}.
Implicit Types (meta : AWSClient deps) (w : World).

(** C2: Delete, by what the remote delete call answers.  On an error with
    the not-found code it returns no error, having sent the delete request
    only; on any other error it returns that error, wrapped, having sent
    the delete request only; on success it sends the deleted-wait next and
    returns what the wait gives.  So the wait is among the requests of the
    run exactly when the delete call succeeded. *)
Theorem Delete_not_found_is_success meta w out err :
  DeleteNatGateway (EC2Conn meta) (sent w) (deleteInput (data w)) = (out, err) →
  let id := schema.Id (data w) in
  let afterDelete := (sent w ++ [CallDeleteNatGateway (deleteInput (data w))])%list in
  (∀ e, err = Some e → errorCode e = Some (ErrCodeNatGatewayNotFound deps) →
     resourceNatGatewayDelete meta w
     = (Returned None, {| data := data w; sent := afterDelete |}))
  ∧ (∀ e, err = Some e → errorCode e ≠ Some (ErrCodeNatGatewayNotFound deps) →
       resourceNatGatewayDelete meta w
       = (Returned (Some (fmt_Errorf_w ("error deleting EC2 NAT Gateway (" ++ id ++ "): ") e)),
          {| data := data w; sent := afterDelete |}))
  ∧ (err = None →
       resourceNatGatewayDelete meta w
       = (Returned
            (fmt_Errorf_w ("error waiting for EC2 NAT Gateway (" ++ id ++ ") delete: ")
               <$> (WaitNATGatewayDeleted deps (EC2Conn meta) afterDelete id).2),
          {| data := data w; sent := afterDelete ++ [CallWaitNATGatewayDeleted id] |}))
  ∧ (CallWaitNATGatewayDeleted id ∈ sentBy (resourceNatGatewayDelete meta) w ↔ err = None).
Proof.
  intros Hans id afterDelete.
  assert (∀ e, err = Some e → errorCode e = Some (ErrCodeNatGatewayNotFound deps) →
            resourceNatGatewayDelete meta w
            = (Returned None, {| data := data w; sent := afterDelete |})) as Hfound.
  { intros e -> Hcode. unfold resourceNatGatewayDelete, deleteInput in *. run.
    rewrite Hans. simpl.
    by rewrite ErrCodeEquals_code, bool_decide_eq_true_2. }
  assert (∀ e, err = Some e → errorCode e ≠ Some (ErrCodeNatGatewayNotFound deps) →
            resourceNatGatewayDelete meta w
            = (Returned (Some (fmt_Errorf_w
                                 ("error deleting EC2 NAT Gateway (" ++ id ++ "): ") e)),
               {| data := data w; sent := afterDelete |})) as Hother.
  { intros e -> Hcode. unfold resourceNatGatewayDelete, deleteInput in *. run.
    rewrite Hans. simpl.
    by rewrite ErrCodeEquals_code, bool_decide_eq_false_2. }
  assert (err = None →
          resourceNatGatewayDelete meta w
          = (Returned
               (fmt_Errorf_w ("error waiting for EC2 NAT Gateway (" ++ id ++ ") delete: ")
                  <$> (WaitNATGatewayDeleted deps (EC2Conn meta) afterDelete id).2),
             {| data := data w; sent := afterDelete ++ [CallWaitNATGatewayDeleted id] |}))
    as Hwait.
  { intros ->. unfold resourceNatGatewayDelete, deleteInput in *. run.
    rewrite Hans. simpl. subst afterDelete id. unfold deleteInput.
    destruct (WaitNATGatewayDeleted deps _ _ _) as [r [e|]]; reflexivity. }
  repeat split; try assumption.
  - intros Hin. destruct err as [e|]; [exfalso|done].
    destruct (decide (errorCode e = Some (ErrCodeNatGatewayNotFound deps))) as [Hc|Hc].
    + rewrite (sentBy_app _ _ [CallDeleteNatGateway (deleteInput (data w))]) in Hin
        by (by rewrite (Hfound e eq_refl Hc)).
      apply list_elem_of_singleton in Hin. discriminate.
    + rewrite (sentBy_app _ _ [CallDeleteNatGateway (deleteInput (data w))]) in Hin
        by (by rewrite (Hother e eq_refl Hc)).
      apply list_elem_of_singleton in Hin. discriminate.
  - intros Hnone.
    rewrite (sentBy_app _ _ [CallDeleteNatGateway (deleteInput (data w));
                             CallWaitNATGatewayDeleted id]).
    + apply elem_of_cons. right. apply list_elem_of_here.
    + rewrite (Hwait Hnone). simpl. subst afterDelete. by rewrite <- app_assoc.
Qed.

End Delete.

Lemma Delete_not_found_is_success_witness :
  let meta : AWSClient (Fixture.deps None None) :=
    Fixture.meta (Fixture.answering (None, None) (None, None) (None, Some Fixture.notFound)) in
  resourceNatGatewayDelete meta Fixture.w
  = (Returned None,
     {| data := Fixture.d; sent := [CallDeleteNatGateway (deleteInput Fixture.d)] |}).
Proof.
  intros meta.
  apply (proj1 (Delete_not_found_is_success meta Fixture.w None (Some Fixture.notFound) eq_refl)
           Fixture.notFound eq_refl eq_refl).
Defined.

(** ** Create *)

Lemma Get_hasType (d : schema.ResourceData) (key : string) :
  schema.wellTyped Schema d → is_Some (Schema !! key) →
  schema.hasType Schema key (schema.Get Schema d key).
Proof.
  intros (Hstate & Hdiff & Hset) [t Ht].
  unfold schema.Get, schema.getDiff, schema.getState.
  destruct (schema.rd_set d !! key) as [v|] eqn:Es; simpl.
  { exact (Hset _ _ Es). }
  destruct (schema.rd_diff d !! key) as [v|] eqn:Ed; simpl.
  { exact (Hdiff _ _ Ed). }
  destruct (schema.rd_state d !! key) as [v|] eqn:Et; simpl.
  { exact (Hstate _ _ Et). }
  unfold schema.hasType. rewrite Ht. by destruct t.
Qed.

Lemma Get_string (d : schema.ResourceData) (key : string) :
  schema.wellTyped Schema d → Schema !! key = Some schema.TypeString →
  ∃ s, schema.Get Schema d key = schema.VString s.
Proof.
  intros Hd Hkey. pose proof (Get_hasType d key Hd (mk_is_Some _ _ Hkey)) as H.
  unfold schema.hasType in H. rewrite Hkey in H.
  destruct (schema.Get Schema d key); [eauto|done].
Qed.

Lemma Get_map (d : schema.ResourceData) (key : string) :
  schema.wellTyped Schema d → Schema !! key = Some schema.TypeMap →
  ∃ m, schema.Get Schema d key = schema.VMap m.
Proof.
  intros Hd Hkey. pose proof (Get_hasType d key Hd (mk_is_Some _ _ Hkey)) as H.
  unfold schema.hasType in H. rewrite Hkey in H.
  destruct (schema.Get Schema d key); [done|eauto].
Qed.

(** On well-typed data, a string field is read as [createInput] reads
    it. *)
Lemma stringField_run (key : string) (w : World) :
  schema.wellTyped Schema (data w) → Schema !! key = Some schema.TypeString →
  stringField key w
  = (Returned match schema.Get Schema (data w) key with
              | schema.VString s => if bool_decide (s = "") then None else Some s
              | schema.VMap _ => None
              end, w).
Proof.
  intros Hd Hkey. destruct (Get_string _ _ Hd Hkey) as [s Hs].
  unfold stringField. run. unfold schema.GetOk. rewrite Hs. simpl.
  by destruct (bool_decide (s = "")).
Qed.

Section Create.

Context {deps : Deps}.
Implicit Types (meta : AWSClient deps) (w : World).

(** C7: Create on well-typed resource data.  When the create call fails,
    Create returns that error, wrapped, and nothing but the create request
    was sent.  When the create call gives a gateway and the wait that
    follows fails (a time-out included), Create returns the error of the
    wait, wrapped, and the resource data it leaves has the identifier of
    the created gateway recorded. *)
Theorem Create_errors meta w :
  schema.wellTyped Schema (data w) →
  let input := createInput meta (data w) in
  let afterCreate := (sent w ++ [CallCreateNatGateway input])%list in
  (∀ out e,
     CreateNatGateway (EC2Conn meta) (sent w) input = (out, Some e) →
     resourceNatGatewayCreate meta w
     = (Returned (Some (fmt_Errorf_w "error creating EC2 NAT Gateway: " e)),
        {| data := data w; sent := afterCreate |}))
  ∧ (∀ out ng r e,
       CreateNatGateway (EC2Conn meta) (sent w) input = (Some out, None) →
       ec2.CreateNatGatewayOutput_NatGateway out = Some ng →
       let id := aws.StringValue (ec2.NatGatewayId ng) in
       WaitNATGatewayCreated deps (EC2Conn meta) afterCreate id = (r, Some e) →
       resourceNatGatewayCreate meta w
       = (Returned (Some (fmt_Errorf_w
                            ("error waiting for EC2 NAT Gateway (" ++ id ++ ") create: ") e)),
          {| data := schema.SetId (data w) id;
             sent := afterCreate ++ [CallWaitNATGatewayCreated id] |})
       ∧ schema.Id (data (resourceNatGatewayCreate meta w).2) = id).
Proof.
  intros Hd input afterCreate.
  destruct (Get_map _ "tags" Hd eq_refl) as [m Hm].
  assert (Hstart : ∀ out err,
            CreateNatGateway (EC2Conn meta) (sent w) input = (out, err) →
            resourceNatGatewayCreate meta w
            = match err with
              | Some e =>
                  (Returned (Some (fmt_Errorf_w "error creating EC2 NAT Gateway: " e)),
                   {| data := data w; sent := afterCreate |})
              | None =>
                  (out' ← deref out;
                   ng ← deref (ec2.CreateNatGatewayOutput_NatGateway out');
                   d_SetId (aws.StringValue (ec2.NatGatewayId ng));;
                   id ← d_Id;
                   '(_, err) ← request (CallWaitNATGatewayCreated id)
                                 (λ h, WaitNATGatewayCreated deps (EC2Conn meta) h id);
                   match err with
                   | Some e =>
                       id ← d_Id;
                       mret (Some (fmt_Errorf_w
                                     ("error waiting for EC2 NAT Gateway (" ++ id ++ ") create: ") e))
                   | None => resourceNatGatewayRead meta
                   end) {| data := data w; sent := afterCreate |}
              end).
  { intros out err Hans. unfold resourceNatGatewayCreate.
    unfold mbind at 1, Go_bind at 1. unfold d_Get at 1, reading at 1. simpl.
    rewrite Hm.
    unfold mbind at 1, Go_bind at 1. unfold assert_map at 1. simpl.
    unfold mret at 1, Go_ret at 1.
    unfold mbind at 1, Go_bind at 1. rewrite (stringField_run _ _ Hd) by reflexivity.
    unfold mbind at 1, Go_bind at 1. rewrite (stringField_run _ _ Hd) by reflexivity.
    unfold mbind at 1, Go_bind at 1. rewrite (stringField_run _ _ Hd) by reflexivity.
    unfold mbind at 1, Go_bind at 1. unfold request at 1. simpl.
    subst input afterCreate. unfold createInput in *. rewrite Hm in *.
    rewrite Hans. by destruct err. }
  split.
  - intros out e Hans. by rewrite (Hstart _ _ Hans).
  - intros out ng r e Hans Hng id Hwait.
    rewrite (Hstart _ _ Hans). run. rewrite Hng. simpl.
    subst id. unfold schema.Id. simpl. rewrite Hwait. simpl. done.
Qed.

End Create.

Lemma Fixture_wellTyped : schema.wellTyped Schema Fixture.d.
Proof. apply (bool_decide_unpack _). vm_compute. exact I. Qed.

Lemma Create_errors_witness :
  let meta : AWSClient (Fixture.deps (Some Fixture.timeout) None) :=
    Fixture.meta (Fixture.describing (None, None)) in
  resourceNatGatewayCreate meta Fixture.w
  = (Returned (Some (fmt_Errorf_w "error waiting for EC2 NAT Gateway (nat-1) create: "
                       Fixture.timeout)),
     {| data := schema.SetId Fixture.d "nat-1";
        sent := [CallCreateNatGateway (createInput meta Fixture.d);
                 CallWaitNATGatewayCreated "nat-1"] |})
  ∧ schema.Id (data (resourceNatGatewayCreate meta Fixture.w).2) = "nat-1".
Proof.
  intros meta.
  apply (proj2 (Create_errors meta Fixture.w Fixture_wellTyped)
           {| ec2.CreateNatGatewayOutput_NatGateway := Some (Fixture.gateway "pending" []) |}
           (Fixture.gateway "pending" []) None Fixture.timeout eq_refl eq_refl eq_refl).
Defined.

(** ** Update *)

Section Update.

Context {deps : Deps}.
Implicit Types (meta : AWSClient deps) (w : World).

(** Read sends one request, the probe for the identifier, however it
    ends. *)
Lemma Read_sent meta w :
  sent (resourceNatGatewayRead meta w).2 = (sent w ++ [probeOf (schema.Id (data w))])%list.
Proof.
  destruct (probe meta w) as [r w'] eqn:H.
  pose proof (probe_world _ _ _ _ H) as ->.
  unfold probe in H. unfold resourceNatGatewayRead. run. rewrite H.
  destruct r as [[[ngRaw state] [e|]]|p]; simpl; try reflexivity.
  destruct (isNil ngRaw || _); simpl; [reflexivity|].
  destruct ngRaw as [ng|]; simpl; [|reflexivity].
  rewrite !Set'_string by reflexivity. simpl.
  destruct (ec2.NatGatewayAddresses ng) as [|[address|] rest]; reflexivity.
Qed.

(** C4, amended: Update sends the tagging call, with the old and new
    value of [tags_all], exactly when [tags_all] has a change.  When that
    call fails, Update returns an error carrying its message, sends nothing
    more and leaves the resource data as it was.  In every other case
    Update goes on as Read does: it sends the probe for the identifier, and
    its result and the resource data it leaves are those of Read. *)
Theorem Update_tags_then_Read meta w :
  let d := data w in
  let id := schema.Id d in
  let o := (schema.GetChange Schema d "tags_all").1 in
  let n := (schema.GetChange Schema d "tags_all").2 in
  let tagged := {| data := d; sent := sent w ++ [CallUpdateTags id o n] |} in
  if schema.HasChange Schema d "tags_all" then
    match UpdateTags deps (EC2Conn meta) (sent w) id o n with
    | Some e =>
        resourceNatGatewayUpdate meta w
        = (Returned (Some (errors_New
                             ("error updating EC2 NAT Gateway (" ++ id ++ ") tags: "
                              ++ Error e))),
           tagged)
    | None =>
        resourceNatGatewayUpdate meta w = resourceNatGatewayRead meta tagged
        ∧ sentBy (resourceNatGatewayUpdate meta) w = [CallUpdateTags id o n; probeOf id]
    end
  else
    resourceNatGatewayUpdate meta w = resourceNatGatewayRead meta w
    ∧ sentBy (resourceNatGatewayUpdate meta) w = [probeOf id].
Proof.
  intros d id o n tagged.
  assert (resourceNatGatewayUpdate meta w
          = if schema.HasChange Schema d "tags_all" then
              match UpdateTags deps (EC2Conn meta) (sent w) id o n with
              | Some e =>
                  (Returned (Some (errors_New
                                     ("error updating EC2 NAT Gateway (" ++ id ++ ") tags: "
                                      ++ Error e))),
                   tagged)
              | None => resourceNatGatewayRead meta tagged
              end
            else resourceNatGatewayRead meta w) as Hrun.
  { unfold resourceNatGatewayUpdate. run.
    subst tagged o n id d. unfold schema.GetChange. simpl.
    destruct (schema.HasChange Schema (data w) "tags_all"); [|reflexivity].
    destruct (UpdateTags deps _ _ _ _ _); reflexivity. }
  destruct (schema.HasChange Schema d "tags_all").
  - destruct (UpdateTags deps _ _ _ _ _) as [e|]; [exact Hrun|].
    split; [exact Hrun|]. apply sentBy_app.
    rewrite Hrun, Read_sent. subst tagged. simpl. by rewrite <- app_assoc.
  - split; [exact Hrun|]. apply sentBy_app. rewrite Hrun. apply Read_sent.
Qed.

End Update.

(** The sentence of C4 as it is written fails on the tracked gateway
    [nat-1] with a changed tag: the run of Update sends the probe after the
    tagging call, and writes the attributes of the gateway it finds. *)
Lemma Update_as_written_fails :
  ¬ updatesAsWritten (Fixture.finding Fixture.live) Fixture.w.
Proof.
  intros [Hsent _]. vm_compute in Hsent. discriminate.
Qed.

(** * Further properties of the probe and of the four operations *)

(** ** The probe, case by case *)

Lemma NGStateRefreshFunc_cases (conn : EC2) (id : string) (w : World) :
  (NGStateRefreshFunc conn id w).1
  = match (describeAnswer conn id w).2, (describeAnswer conn id w).1 with
    | Some e, _ =>
        if bool_decide (errorCode e = Some "NatGatewayNotFound")
        then Returned absent
        else Returned (None, "", Some e)
    | None, None => Returned absent
    | None, Some r =>
        match ec2.NatGateways r with
        | [] => Panicked (IndexOutOfRange 0 0)
        | None :: _ => Panicked NilPointerDereference
        | Some ng :: _ =>
            match ec2.State ng with
            | Some state => Returned (Some ng, state, None)
            | None => Panicked NilPointerDereference
            end
        end
    end.
Proof.
  unfold describeAnswer, NGStateRefreshFunc. run.
  destruct (DescribeNatGateways _ _ _) as [resp [e|]]; simpl.
  - rewrite ErrMessageContains_code. destruct (bool_decide _); reflexivity.
  - destruct resp as [[gws]|]; simpl; [|reflexivity].
    destruct gws as [|[ng|] gws]; simpl; try reflexivity.
    by destruct (ec2.State ng).
Qed.

(** X1: a probe whose Describe call gives, without error, a list that
    starts with a gateway that has a label returns that gateway and that
    label, with no error, whatever follows in the list. *)
Theorem NGStateRefreshFunc_returns_first conn id w r ng rest state :
  describeAnswer conn id w = (Some r, None) →
  ec2.NatGateways r = Some ng :: rest →
  ec2.State ng = Some state →
  NGStateRefreshFunc conn id w
  = (Returned (Some ng, state, None),
     {| data := data w; sent := sent w ++ [probeOf id] |}).
Proof.
  intros Hans Hgws Hstate.
  rewrite (surjective_pairing (NGStateRefreshFunc conn id w)).
  rewrite NGStateRefreshFunc_world, NGStateRefreshFunc_cases, Hans. simpl.
  by rewrite Hgws, Hstate.
Qed.

Lemma NGStateRefreshFunc_returns_first_witness :
  NGStateRefreshFunc
    (Fixture.describing
       (Some {| ec2.NatGateways := [Some Fixture.live; Some Fixture.deleted; None] |}, None))
    "nat-1" Fixture.w
  = (Returned (Some Fixture.live, "available", None),
     {| data := Fixture.d; sent := [probeOf "nat-1"] |}).
Proof.
  apply (NGStateRefreshFunc_returns_first
           (Fixture.describing
              (Some {| ec2.NatGateways := [Some Fixture.live; Some Fixture.deleted; None] |},
               None))
           "nat-1" Fixture.w
           {| ec2.NatGateways := [Some Fixture.live; Some Fixture.deleted; None] |}
           Fixture.live [Some Fixture.deleted; None] "available" eq_refl eq_refl eq_refl).
Defined.

(** X2: a probe panics in exactly one situation: the Describe call gave,
    without error, a response from which no gateway and label can be read
    (an empty list, a nil first entry, or a first gateway without a label).
    On every error and on a nil response it returns. *)
Theorem NGStateRefreshFunc_panics_iff conn id w :
  (∃ p, (NGStateRefreshFunc conn id w).1 = Panicked p)
  ↔ ∃ r, describeAnswer conn id w = (Some r, None) ∧ unreadable r.
Proof.
  rewrite NGStateRefreshFunc_cases. unfold unreadable.
  destruct (describeAnswer conn id w) as [resp [e|]]; simpl.
  - split.
    + intros [p Hp]. by case_bool_decide.
    + intros (r & Hr & _). discriminate.
  - destruct resp as [r|].
    + split.
      * intros [p Hp]. exists r. split; [done|].
        destruct (ec2.NatGateways r) as [|[ng|] gws]; try done.
        by destruct (ec2.State ng).
      * intros (r' & Hr & Hun). injection Hr as <-.
        destruct (ec2.NatGateways r) as [|[ng|] gws]; eauto.
        rewrite Hun. eauto.
    + split.
      * intros [p Hp]. discriminate.
      * intros (r & Hr & _). discriminate.
Qed.

(** X3: whatever the remote side answers, and however the probe ends, a
    probe sends exactly one request, the Describe call for the one
    identifier it was given, and leaves the resource data as it was. *)
Theorem NGStateRefreshFunc_sends_one_describe conn id w :
  sentBy (NGStateRefreshFunc conn id) w
  = [CallDescribeNatGateways {| ec2.NatGatewayIds := [Some id] |}]
  ∧ data (NGStateRefreshFunc conn id w).2 = data w.
Proof.
  split.
  - apply sentBy_app. by rewrite NGStateRefreshFunc_world.
  - by rewrite NGStateRefreshFunc_world.
Qed.

(** ** Read, case by case *)

Section ReadCases.

Context {deps : Deps}.
Implicit Types (meta : AWSClient deps) (w : World).

(** Every way Read can end, from how its probe ended. *)
Lemma Read_cases meta w :
  resourceNatGatewayRead meta w
  = let w' := {| data := data w; sent := sent w ++ [probeOf (schema.Id (data w))] |} in
    match (probe meta w).1 with
    | Panicked p => (Panicked p, w')
    | Returned (_, _, Some e) => (Returned (Some e), w')
    | Returned (ngRaw, state, None) =>
        if isNil ngRaw
           || bool_decide (is_Some (status !! strings.ToLower (unicodeLower deps) state))
        then (Returned None, {| data := schema.SetId (data w) ""; sent := sent w' |})
        else
          match ngRaw with
          | None => (Panicked InterfaceConversion, w')
          | Some ng =>
              match ec2.NatGatewayAddresses ng with
              | [] => (Panicked (IndexOutOfRange 0 0),
                       {| data := writtenFirst ng (data w); sent := sent w' |})
              | None :: _ => (Panicked NilPointerDereference,
                              {| data := writtenFirst ng (data w); sent := sent w' |})
              | Some address :: _ =>
                  (Returned None,
                   {| data := mapped meta ng address (data w); sent := sent w' |})
              end
          end
    end.
Proof.
  destruct (probe meta w) as [r w'] eqn:H.
  pose proof (probe_world _ _ _ _ H) as ->.
  unfold probe in H. unfold resourceNatGatewayRead. run. rewrite H.
  destruct r as [[[ngRaw state] [e|]]|p]; simpl; try reflexivity.
  destruct (isNil ngRaw || _); simpl; [reflexivity|].
  destruct ngRaw as [ng|]; simpl; [|reflexivity].
  rewrite !Set'_string by reflexivity. simpl.
  destruct (ec2.NatGatewayAddresses ng) as [|[address|] rest]; reflexivity.
Qed.

(** X4: however Read ends, and whatever the remote side answers, Read sends
    exactly one request, the probe for the tracked identifier (it never
    creates, tags or deletes), and it leaves the prior state and the planned
    attributes of the resource data as they were. *)
Theorem Read_only_probes meta w :
  sentBy (resourceNatGatewayRead meta) w = [probeOf (schema.Id (data w))]
  ∧ schema.rd_state (data (resourceNatGatewayRead meta w).2) = schema.rd_state (data w)
  ∧ schema.rd_diff (data (resourceNatGatewayRead meta w).2) = schema.rd_diff (data w).
Proof.
  split.
  - apply sentBy_app. rewrite Read_cases. simpl.
    destruct (probe meta w).1 as [[[ngRaw state] [e|]]|p]; try reflexivity.
    destruct (isNil ngRaw || _); [reflexivity|].
    destruct ngRaw as [ng|]; [|reflexivity].
    by destruct (ec2.NatGatewayAddresses ng) as [|[address|] rest].
  - rewrite Read_cases. simpl.
    destruct (probe meta w).1 as [[[ngRaw state] [e|]]|p]; try done.
    destruct (isNil ngRaw || _); [done|].
    destruct ngRaw as [ng|]; [|done].
    by destruct (ec2.NatGatewayAddresses ng) as [|[address|] rest].
Qed.

(** X6: the only error Read returns is the error of its probe: the two
    branches that wrap an error of setting [tags] and [tags_all] are never
    taken, as both attributes are maps in the schema. *)
Theorem Read_error_is_probe_error meta w e :
  (resourceNatGatewayRead meta w).1 = Returned (Some e) →
  ∃ ngRaw state, (probe meta w).1 = Returned (ngRaw, state, Some e).
Proof.
  rewrite Read_cases. simpl.
  destruct (probe meta w).1 as [[[ngRaw state] [e'|]]|p]; simpl.
  - intros [= <-]. eauto.
  - destruct (isNil ngRaw || _); [discriminate|].
    destruct ngRaw as [ng|]; [|discriminate].
    by destruct (ec2.NatGatewayAddresses ng) as [|[address|] rest].
  - discriminate.
Qed.

(** X7: when its probe returns without error, Read panics exactly when the
    gateway found is not in a gone state and its address list does not start
    with an address (it is empty, or its first entry is nil). *)
Theorem Read_panics_iff meta w ngRaw state :
  (probe meta w).1 = Returned (ngRaw, state, None) →
  (∃ p, (resourceNatGatewayRead meta w).1 = Panicked p)
  ↔ ∃ ng, ngRaw = Some ng ∧ ¬ gone deps state ∧ addressless ng.
Proof.
  intros H. rewrite Read_cases. simpl. rewrite H. unfold addressless.
  destruct (bool_decide _) eqn:Hgone.
  - apply bool_decide_eq_true_1, status_goneLabels in Hgone.
    rewrite orb_true_r. split.
    + intros [p Hp]. discriminate.
    + intros (ng & _ & Hlive & _). by destruct Hlive.
  - apply bool_decide_eq_false_1 in Hgone. rewrite status_goneLabels in Hgone.
    rewrite orb_false_r. destruct ngRaw as [ng|]; simpl.
    + split.
      * intros [p Hp]. exists ng. repeat split; [done|].
        by destruct (ec2.NatGatewayAddresses ng) as [|[address|] rest].
      * intros (ng' & [= <-] & _ & Hno).
        destruct (ec2.NatGatewayAddresses ng) as [|[address|] rest]; simpl; eauto.
        by destruct Hno.
    + split.
      * intros [p Hp]. discriminate.
      * intros (ng & Hng & _). discriminate.
Qed.

End ReadCases.

Lemma Read_error_is_probe_error_witness :
  let meta : AWSClient (Fixture.deps None None) :=
    Fixture.meta (Fixture.describing (None, Some Fixture.throttled)) in
  ∃ ngRaw state, (probe meta Fixture.w).1 = Returned (ngRaw, state, Some Fixture.throttled).
Proof.
  intros meta.
  apply (Read_error_is_probe_error meta Fixture.w Fixture.throttled eq_refl).
Defined.

Lemma Read_panics_iff_witness :
  (∃ p, (resourceNatGatewayRead (Fixture.finding Fixture.bare) Fixture.w).1 = Panicked p)
  ↔ ∃ ng, Some Fixture.bare = Some ng
          ∧ ¬ gone (Fixture.deps None None) "available" ∧ addressless ng.
Proof.
  apply (Read_panics_iff (Fixture.finding Fixture.bare) Fixture.w
           (Some Fixture.bare) "available" eq_refl).
Defined.

(** ** Read after Read *)

(** Writing the same eight values under the same eight keys a second time
    changes nothing. *)
Lemma insert8_twice (k1 k2 k3 k4 k5 k6 k7 k8 : string)
    (v1 v2 v3 v4 v5 v6 v7 v8 : schema.value) (m : gmap string schema.value) :
  let f (m : gmap string schema.value) :=
    <[k8 := v8]> (<[k7 := v7]> (<[k6 := v6]> (<[k5 := v5]>
      (<[k4 := v4]> (<[k3 := v3]> (<[k2 := v2]> (<[k1 := v1]> m))))))) in
  f (f m) = f m.
Proof.
  intros f. subst f. cbv beta.
  apply map_eq. intros key. rewrite !lookup_insert.
  repeat (case_decide; [reflexivity|]). reflexivity.
Qed.

Lemma ResourceData_ext (d1 d2 : schema.ResourceData) :
  schema.rd_id d1 = schema.rd_id d2 →
  schema.rd_state d1 = schema.rd_state d2 →
  schema.rd_diff d1 = schema.rd_diff d2 →
  schema.rd_set d1 = schema.rd_set d2 →
  d1 = d2.
Proof. destruct d1, d2. simpl. by intros -> -> -> ->. Qed.

Lemma rd_id_write (d : schema.ResourceData) (key : string) (v : schema.value) :
  schema.rd_id (schema.write d key v) = schema.rd_id d.
Proof. reflexivity. Qed.

Lemma rd_state_write (d : schema.ResourceData) (key : string) (v : schema.value) :
  schema.rd_state (schema.write d key v) = schema.rd_state d.
Proof. reflexivity. Qed.

Lemma rd_diff_write (d : schema.ResourceData) (key : string) (v : schema.value) :
  schema.rd_diff (schema.write d key v) = schema.rd_diff d.
Proof. reflexivity. Qed.

Lemma rd_set_write (d : schema.ResourceData) (key : string) (v : schema.value) :
  schema.rd_set (schema.write d key v) = <[key := v]> (schema.rd_set d).
Proof. reflexivity. Qed.

Section ReadWrites.

Context {deps : Deps}.
Implicit Types (meta : AWSClient deps) (w : World).

Lemma mapped_twice meta ng address (d : schema.ResourceData) :
  mapped meta ng address (mapped meta ng address d) = mapped meta ng address d.
Proof.
  unfold mapped. apply ResourceData_ext.
  - by rewrite !rd_id_write.
  - by rewrite !rd_state_write.
  - by rewrite !rd_diff_write.
  - rewrite !rd_set_write. apply insert8_twice.
Qed.

(** X9: Read is idempotent on a gateway it maps: when a first Read has
    written a gateway to the resource data and a second Read finds the same
    gateway with the same label, the second Read leaves the resource data
    exactly as the first one left it. *)
Theorem Read_twice meta w ng state w' address rest :
  probe meta w = (Returned (Some ng, state, None), w') →
  ¬ gone deps state →
  ec2.NatGatewayAddresses ng = Some address :: rest →
  let w1 := (resourceNatGatewayRead meta w).2 in
  (probe meta w1).1 = Returned (Some ng, state, None) →
  (resourceNatGatewayRead meta w1).1 = Returned None
  ∧ data (resourceNatGatewayRead meta w1).2 = data w1.
Proof.
  intros H Hlive Haddr w1 H1.
  assert (probe meta w1 = (Returned (Some ng, state, None), (probe meta w1).2)) as H1'.
  { by rewrite <- H1, <- surjective_pairing. }
  rewrite (Read_mapped _ _ _ _ _ _ _ H1' Hlive Haddr). simpl.
  split; [reflexivity|].
  subst w1. rewrite (Read_mapped _ _ _ _ _ _ _ H Hlive Haddr). simpl.
  apply mapped_twice.
Qed.

End ReadWrites.

Lemma Read_twice_witness :
  let w1 := (resourceNatGatewayRead (Fixture.finding Fixture.live) Fixture.w).2 in
  (resourceNatGatewayRead (Fixture.finding Fixture.live) w1).1 = Returned None
  ∧ data (resourceNatGatewayRead (Fixture.finding Fixture.live) w1).2 = data w1.
Proof.
  apply (Read_twice (Fixture.finding Fixture.live) Fixture.w Fixture.live "available"
           {| data := Fixture.d; sent := [probeOf "nat-1"] |} Fixture.address []
           eq_refl available_not_gone eq_refl eq_refl).
Defined.

(** ** Delete, Update and Create, case by case *)

Lemma errorCode_wrapped (prefix : string) (e : error) :
  errorCode (fmt_Errorf_w prefix e) = errorCode e.
Proof. reflexivity. Qed.

Section Lifecycle.

Context {deps : Deps}.
Implicit Types (meta : AWSClient deps) (w : World).

Lemma Delete_cases meta w :
  let id := schema.Id (data w) in
  let answer := DeleteNatGateway (EC2Conn meta) (sent w) (deleteInput (data w)) in
  let afterDelete := (sent w ++ [CallDeleteNatGateway (deleteInput (data w))])%list in
  resourceNatGatewayDelete meta w
  = match answer.2 with
    | Some e =>
        (Returned
           (if bool_decide (errorCode e = Some (ErrCodeNatGatewayNotFound deps))
            then None
            else Some (fmt_Errorf_w ("error deleting EC2 NAT Gateway (" ++ id ++ "): ") e)),
         {| data := data w; sent := afterDelete |})
    | None =>
        (Returned
           (fmt_Errorf_w ("error waiting for EC2 NAT Gateway (" ++ id ++ ") delete: ")
              <$> (WaitNATGatewayDeleted deps (EC2Conn meta) afterDelete id).2),
         {| data := data w; sent := afterDelete ++ [CallWaitNATGatewayDeleted id] |})
    end.
Proof.
  intros id answer afterDelete. subst id answer afterDelete.
  unfold resourceNatGatewayDelete, deleteInput. run.
  destruct (DeleteNatGateway _ _ _) as [out [e|]]; simpl.
  - rewrite ErrCodeEquals_code. by destruct (bool_decide _).
  - by destruct (WaitNATGatewayDeleted deps _ _ _) as [r [e|]].
Qed.

(** X10: Delete never touches the resource data: identifier and attributes
    are after the call what they were before it, however the call ends (it
    is not Delete that clears the identifier).  What it sends is the delete
    request for the tracked identifier, followed by at most the wait for the
    same identifier. *)
Theorem Delete_leaves_data meta w :
  data (resourceNatGatewayDelete meta w).2 = data w
  ∧ (sentBy (resourceNatGatewayDelete meta) w
     = [CallDeleteNatGateway
          {| ec2.DeleteNatGatewayInput_NatGatewayId := Some (schema.Id (data w)) |}]
     ∨ sentBy (resourceNatGatewayDelete meta) w
       = [CallDeleteNatGateway
            {| ec2.DeleteNatGatewayInput_NatGatewayId := Some (schema.Id (data w)) |};
          CallWaitNATGatewayDeleted (schema.Id (data w))]).
Proof.
  unfold sentBy. rewrite Delete_cases. cbv zeta.
  destruct (DeleteNatGateway _ _ _).2 as [e|]; simpl.
  - split; [reflexivity|]. left. by rewrite drop_app_length.
  - split; [reflexivity|]. right. by rewrite <- app_assoc, drop_app_length.
Qed.

(** X11: every error Delete returns wraps the error of the call that
    failed, the delete call or the wait: the code of that error is still
    found in the returned error, so a caller's test on the code gives the
    same answer on both. *)
Theorem Delete_error_keeps_code meta w err :
  (resourceNatGatewayDelete meta w).1 = Returned (Some err) →
  let id := schema.Id (data w) in
  let afterDelete := (sent w ++ [CallDeleteNatGateway (deleteInput (data w))])%list in
  ∃ prefix e,
    err = fmt_Errorf_w prefix e
    ∧ ((DeleteNatGateway (EC2Conn meta) (sent w) (deleteInput (data w))).2 = Some e
       ∨ (WaitNATGatewayDeleted deps (EC2Conn meta) afterDelete id).2 = Some e)
    ∧ ∀ code, tfawserr.ErrCodeEquals (Some err) code
              = tfawserr.ErrCodeEquals (Some e) code.
Proof.
  rewrite Delete_cases. cbv zeta.
  destruct (DeleteNatGateway _ _ _).2 as [e|] eqn:Hdel; simpl.
  - destruct (bool_decide _); [discriminate|]. intros [= <-].
    eexists _, e. split; [reflexivity|]. split; [by left|].
    intros code. by rewrite !ErrCodeEquals_code.
  - destruct (WaitNATGatewayDeleted deps _ _ _).2 as [e|] eqn:Hwait; simpl;
      [|discriminate].
    intros [= <-]. eexists _, e. split; [reflexivity|]. split; [by right|].
    intros code. by rewrite !ErrCodeEquals_code.
Qed.

Lemma Update_cases meta w :
  let d := data w in
  let id := schema.Id d in
  let o := (schema.GetChange Schema d "tags_all").1 in
  let n := (schema.GetChange Schema d "tags_all").2 in
  let tagged := {| data := d; sent := sent w ++ [CallUpdateTags id o n] |} in
  resourceNatGatewayUpdate meta w
  = if schema.HasChange Schema d "tags_all" then
      match UpdateTags deps (EC2Conn meta) (sent w) id o n with
      | Some e =>
          (Returned (Some (errors_New
                             ("error updating EC2 NAT Gateway (" ++ id ++ ") tags: "
                              ++ Error e))),
           tagged)
      | None => resourceNatGatewayRead meta tagged
      end
    else resourceNatGatewayRead meta w.
Proof.
  intros d id o n tagged.
  unfold resourceNatGatewayUpdate. run.
  subst tagged o n id d. unfold schema.GetChange. simpl.
  destruct (schema.HasChange Schema (data w) "tags_all"); [|reflexivity].
  destruct (UpdateTags deps _ _ _ _ _); reflexivity.
Qed.

(** X12: the error Update returns when the tagging call fails carries the
    message of the tagging error but does not wrap it (it is formatted with
    [%s]): no error code is found in it, whatever the code of the tagging
    error was.  Its text is the prefix with the identifier, then the text of
    the tagging error. *)
Theorem Update_error_drops_code meta w e :
  schema.HasChange Schema (data w) "tags_all" = true →
  let id := schema.Id (data w) in
  let o := (schema.GetChange Schema (data w) "tags_all").1 in
  let n := (schema.GetChange Schema (data w) "tags_all").2 in
  UpdateTags deps (EC2Conn meta) (sent w) id o n = Some e →
  ∃ err,
    (resourceNatGatewayUpdate meta w).1 = Returned (Some err)
    ∧ (∀ code, tfawserr.ErrCodeEquals (Some err) code = false)
    ∧ Error err = "error updating EC2 NAT Gateway (" ++ id ++ ") tags: " ++ Error e.
Proof.
  intros Hchange id o n Htag. rewrite Update_cases. cbv zeta.
  rewrite Hchange. fold id o n. rewrite Htag.
  eexists. split; [reflexivity|]. split; [|reflexivity].
  intros code. reflexivity.
Qed.

(** X13: the test Delete makes for a not-found error and the test the
    probe makes agree when the constant of the package is the code the probe
    spells out: on one and the same error, Delete returns success exactly
    when the probe reports absent. *)
Theorem not_found_tests_agree meta w w' r e :
  ErrCodeNatGatewayNotFound deps = "NatGatewayNotFound" →
  describeAnswer (EC2Conn meta) (schema.Id (data w)) w = (r, Some e) →
  (DeleteNatGateway (EC2Conn meta) (sent w') (deleteInput (data w'))).2 = Some e →
  (probe meta w).1 = Returned absent
  ↔ (resourceNatGatewayDelete meta w').1 = Returned None.
Proof.
  intros Hconst Hdesc Hdel. unfold probe.
  rewrite NGStateRefreshFunc_cases, Hdesc, Delete_cases. cbv zeta. simpl.
  rewrite Hdel, Hconst. simpl.
  destruct (bool_decide (errorCode e = Some "NatGatewayNotFound")); simpl.
  - done.
  - split; discriminate.
Qed.

(** On well-typed data, every way Create can end, from what the create
    call and the wait answer. *)
Lemma Create_cases meta w out err :
  schema.wellTyped Schema (data w) →
  let input := createInput meta (data w) in
  let afterCreate := (sent w ++ [CallCreateNatGateway input])%list in
  CreateNatGateway (EC2Conn meta) (sent w) input = (out, err) →
  resourceNatGatewayCreate meta w
  = match err with
    | Some e =>
        (Returned (Some (fmt_Errorf_w "error creating EC2 NAT Gateway: " e)),
         {| data := data w; sent := afterCreate |})
    | None =>
        match out ≫= ec2.CreateNatGatewayOutput_NatGateway with
        | None => (Panicked NilPointerDereference,
                   {| data := data w; sent := afterCreate |})
        | Some ng =>
            let id := aws.StringValue (ec2.NatGatewayId ng) in
            let waited := {| data := schema.SetId (data w) id;
                             sent := afterCreate ++ [CallWaitNATGatewayCreated id] |} in
            match (WaitNATGatewayCreated deps (EC2Conn meta) afterCreate id).2 with
            | Some e =>
                (Returned (Some (fmt_Errorf_w
                                   ("error waiting for EC2 NAT Gateway (" ++ id
                                    ++ ") create: ") e)),
                 waited)
            | None => resourceNatGatewayRead meta waited
            end
        end
    end.
Proof.
  intros Hd input afterCreate Hans.
  destruct (Get_map _ "tags" Hd eq_refl) as [m Hm].
  match goal with |- _ = ?R => remember R as ending eqn:Hending end.
  unfold resourceNatGatewayCreate.
  unfold mbind at 1, Go_bind at 1. unfold d_Get at 1, reading at 1. simpl.
  rewrite Hm.
  unfold mbind at 1, Go_bind at 1. unfold assert_map at 1. simpl.
  unfold mret at 1, Go_ret at 1.
  unfold mbind at 1, Go_bind at 1. rewrite (stringField_run _ _ Hd) by reflexivity.
  unfold mbind at 1, Go_bind at 1. rewrite (stringField_run _ _ Hd) by reflexivity.
  unfold mbind at 1, Go_bind at 1. rewrite (stringField_run _ _ Hd) by reflexivity.
  unfold mbind at 1, Go_bind at 1. unfold request at 1. simpl.
  subst input afterCreate. unfold createInput in *. rewrite Hm in *.
  rewrite Hans. subst ending.
  destruct err as [e|]; [reflexivity|].
  run. destruct out as [[[ng|]]|]; simpl; try reflexivity.
  unfold schema.Id. simpl.
  by destruct (WaitNATGatewayCreated deps _ _ _) as [r [e|]].
Qed.

(** X14: on well-typed resource data, when the create call gives a gateway
    and the wait succeeds, Create ends as Read does on the resource data with
    the new identifier recorded: its result and the resource data it leaves
    are those of that Read, and the run has sent, in this order, the create
    request, the wait for the new identifier and the probe for it. *)
Theorem Create_success_is_Read meta w out ng r :
  schema.wellTyped Schema (data w) →
  let input := createInput meta (data w) in
  let afterCreate := (sent w ++ [CallCreateNatGateway input])%list in
  CreateNatGateway (EC2Conn meta) (sent w) input = (Some out, None) →
  ec2.CreateNatGatewayOutput_NatGateway out = Some ng →
  let id := aws.StringValue (ec2.NatGatewayId ng) in
  WaitNATGatewayCreated deps (EC2Conn meta) afterCreate id = (r, None) →
  resourceNatGatewayCreate meta w
  = resourceNatGatewayRead meta
      {| data := schema.SetId (data w) id;
         sent := afterCreate ++ [CallWaitNATGatewayCreated id] |}
  ∧ sentBy (resourceNatGatewayCreate meta) w
    = [CallCreateNatGateway input; CallWaitNATGatewayCreated id; probeOf id].
Proof.
  intros Hd input afterCreate Hans Hng id Hwait.
  assert (resourceNatGatewayCreate meta w
          = resourceNatGatewayRead meta
              {| data := schema.SetId (data w) id;
                 sent := afterCreate ++ [CallWaitNATGatewayCreated id] |}) as Hrun.
  { rewrite (Create_cases _ _ _ _ Hd Hans). simpl.
    rewrite Hng. fold input afterCreate id. by rewrite Hwait. }
  split; [exact Hrun|].
  apply sentBy_app. rewrite Hrun, Read_sent. simpl.
  subst afterCreate. by rewrite <- !app_assoc.
Qed.

(** X15: on well-typed resource data, when the create call reports no
    error but gives no gateway (a nil output, or an output whose gateway is
    nil), Create panics on the nil pointer: no identifier is recorded, no wait
    is sent, and only the create request has gone out. *)
Theorem Create_nil_gateway_panics meta w out :
  schema.wellTyped Schema (data w) →
  let input := createInput meta (data w) in
  CreateNatGateway (EC2Conn meta) (sent w) input = (out, None) →
  out ≫= ec2.CreateNatGatewayOutput_NatGateway = None →
  resourceNatGatewayCreate meta w
  = (Panicked NilPointerDereference,
     {| data := data w; sent := sent w ++ [CallCreateNatGateway input] |}).
Proof.
  intros Hd input Hans Hnil.
  rewrite (Create_cases _ _ _ _ Hd Hans). by rewrite Hnil.
Qed.

End Lifecycle.

Lemma Delete_error_keeps_code_witness :
  let meta : AWSClient (Fixture.deps None None) :=
    Fixture.meta (Fixture.answering (None, None) (None, None) (None, Some Fixture.throttled)) in
  let afterDelete := [CallDeleteNatGateway (deleteInput Fixture.d)] in
  ∃ prefix e,
    fmt_Errorf_w "error deleting EC2 NAT Gateway (nat-1): " Fixture.throttled
    = fmt_Errorf_w prefix e
    ∧ ((DeleteNatGateway (EC2Conn meta) [] (deleteInput Fixture.d)).2 = Some e
       ∨ (WaitNATGatewayDeleted (Fixture.deps None None) (EC2Conn meta) afterDelete "nat-1").2
         = Some e)
    ∧ ∀ code,
        tfawserr.ErrCodeEquals
          (Some (fmt_Errorf_w "error deleting EC2 NAT Gateway (nat-1): " Fixture.throttled))
          code
        = tfawserr.ErrCodeEquals (Some e) code.
Proof.
  intros meta afterDelete.
  apply (Delete_error_keeps_code meta Fixture.w
           (fmt_Errorf_w "error deleting EC2 NAT Gateway (nat-1): " Fixture.throttled)
           eq_refl).
Defined.

Lemma Update_error_drops_code_witness :
  let meta : AWSClient (Fixture.deps None (Some Fixture.throttled)) :=
    Fixture.meta (Fixture.describing (Fixture.found Fixture.live)) in
  ∃ err,
    (resourceNatGatewayUpdate meta Fixture.w).1 = Returned (Some err)
    ∧ (∀ code, tfawserr.ErrCodeEquals (Some err) code = false)
    ∧ Error err
      = "error updating EC2 NAT Gateway (nat-1) tags: RequestLimitExceeded: Request limit exceeded.".
Proof.
  intros meta.
  apply (Update_error_drops_code meta Fixture.w Fixture.throttled eq_refl eq_refl).
Defined.

Lemma not_found_tests_agree_witness :
  let meta : AWSClient (Fixture.deps None None) :=
    Fixture.meta (Fixture.answering (None, None) (None, Some Fixture.notFound)
                    (None, Some Fixture.notFound)) in
  (probe meta Fixture.w).1 = Returned absent
  ↔ (resourceNatGatewayDelete meta Fixture.w).1 = Returned None.
Proof.
  intros meta.
  apply (not_found_tests_agree meta Fixture.w Fixture.w None Fixture.notFound
           eq_refl eq_refl eq_refl).
Defined.

Lemma Create_success_is_Read_witness :
  let meta := Fixture.finding Fixture.live in
  let input := createInput meta Fixture.d in
  resourceNatGatewayCreate meta Fixture.w
  = resourceNatGatewayRead meta
      {| data := schema.SetId Fixture.d "nat-1";
         sent := [CallCreateNatGateway input; CallWaitNATGatewayCreated "nat-1"] |}
  ∧ sentBy (resourceNatGatewayCreate meta) Fixture.w
    = [CallCreateNatGateway input; CallWaitNATGatewayCreated "nat-1"; probeOf "nat-1"].
Proof.
  intros meta input.
  apply (Create_success_is_Read meta Fixture.w
           {| ec2.CreateNatGatewayOutput_NatGateway := Some (Fixture.gateway "pending" []) |}
           (Fixture.gateway "pending" []) None Fixture_wellTyped eq_refl eq_refl eq_refl).
Defined.

Lemma Create_nil_gateway_panics_witness :
  let meta : AWSClient (Fixture.deps None None) :=
    Fixture.meta (Fixture.answering
                    (Some {| ec2.CreateNatGatewayOutput_NatGateway := None |}, None)
                    (None, None) (None, None)) in
  resourceNatGatewayCreate meta Fixture.w
  = (Panicked NilPointerDereference,
     {| data := Fixture.d; sent := [CallCreateNatGateway (createInput meta Fixture.d)] |}).
Proof.
  intros meta.
  apply (Create_nil_gateway_panics meta Fixture.w
           (Some {| ec2.CreateNatGatewayOutput_NatGateway := None |})
           Fixture_wellTyped eq_refl eq_refl).
Defined.

(** ** The schema and what Read writes *)

Lemma Schema_keys (key : string) :
  is_Some (Schema !! key) ↔ key ∈ writtenKeys.
Proof.
  unfold Schema, writtenKeys.
  rewrite !list_to_map_cons, list_to_map_nil, !lookup_insert, lookup_empty.
  rewrite !elem_of_cons, elem_of_nil.
  split.
  - intros Hkey. repeat (case_decide; [subst; tauto|]). by destruct Hkey.
  - intros Hkey. repeat (case_decide; [eauto|]).
    destruct Hkey as [?|[?|[?|[?|[?|[?|[?|[?|[]]]]]]]]]; congruence.
Qed.

Section ReadCovers.

Context {deps : Deps}.
Implicit Types (meta : AWSClient deps) (w : World).

(** What reads back under a key of the schema after the gateway is written
    is the same whatever the resource data held: each of these keys is
    written, with a value taken from the gateway. *)
Lemma mapped_Get_same meta ng address (d1 d2 : schema.ResourceData) (key : string) :
  key ∈ writtenKeys →
  schema.Get Schema (mapped meta ng address d1) key
  = schema.Get Schema (mapped meta ng address d2) key.
Proof.
  unfold writtenKeys. rewrite !elem_of_cons, elem_of_nil.
  intros Hkey. unfold schema.Get, mapped.
  rewrite !rd_set_write, !lookup_insert.
  repeat (case_decide; [reflexivity|]).
  destruct Hkey as [?|[?|[?|[?|[?|[?|[?|[?|[]]]]]]]]]; congruence.
Qed.

(** X16: Read refreshes the whole schema, and nothing stale survives it:
    when two Reads, on resource data that may differ in everything, find the
    same gateway (one that is not gone and whose address list starts with an
    address), then every attribute the schema declares reads the same from
    both resource data afterwards. *)
Theorem Read_overwrites_every_attribute meta w1 w2 ng state address rest :
  (probe meta w1).1 = Returned (Some ng, state, None) →
  (probe meta w2).1 = Returned (Some ng, state, None) →
  ¬ gone deps state →
  ec2.NatGatewayAddresses ng = Some address :: rest →
  ∀ key, is_Some (Schema !! key) →
    schema.Get Schema (data (resourceNatGatewayRead meta w1).2) key
    = schema.Get Schema (data (resourceNatGatewayRead meta w2).2) key.
Proof.
  intros H1 H2 Hlive Haddr key Hkey.
  assert (probe meta w1 = (Returned (Some ng, state, None), (probe meta w1).2)) as H1'.
  { by rewrite <- H1, <- surjective_pairing. }
  assert (probe meta w2 = (Returned (Some ng, state, None), (probe meta w2).2)) as H2'.
  { by rewrite <- H2, <- surjective_pairing. }
  rewrite (Read_mapped _ _ _ _ _ _ _ H1' Hlive Haddr).
  rewrite (Read_mapped _ _ _ _ _ _ _ H2' Hlive Haddr).
  cbn [data snd]. apply mapped_Get_same. by apply Schema_keys.
Qed.

(** X17: on well-typed resource data, whatever the remote side answers,
    Create sends its requests in one order and never any other request: the
    create request built from the resource data, then at most the wait for
    one identifier, then at most the probe for that same identifier. *)
Theorem Create_sends_in_order meta w :
  schema.wellTyped Schema (data w) →
  let input := createInput meta (data w) in
  sentBy (resourceNatGatewayCreate meta) w = [CallCreateNatGateway input]
  ∨ ∃ id,
      sentBy (resourceNatGatewayCreate meta) w
      = [CallCreateNatGateway input; CallWaitNATGatewayCreated id]
      ∨ sentBy (resourceNatGatewayCreate meta) w
        = [CallCreateNatGateway input; CallWaitNATGatewayCreated id; probeOf id].
Proof.
  intros Hd input.
  destruct (CreateNatGateway (EC2Conn meta) (sent w) input) as [out err] eqn:Hans.
  pose proof (Create_cases meta w out err Hd Hans) as Hrun. cbv zeta in Hrun.
  fold input in Hrun.
  destruct err as [e|].
  { left. apply sentBy_app. by rewrite Hrun. }
  destruct (out ≫= ec2.CreateNatGatewayOutput_NatGateway) as [ng|].
  2: { left. apply sentBy_app. by rewrite Hrun. }
  right. exists (aws.StringValue (ec2.NatGatewayId ng)).
  destruct (WaitNATGatewayCreated deps _ _ _).2 as [e|].
  - left. apply sentBy_app. rewrite Hrun. simpl. by rewrite <- app_assoc.
  - right. apply sentBy_app. rewrite Hrun, Read_sent. simpl.
    by rewrite <- !app_assoc.
Qed.

End ReadCovers.

Lemma Read_overwrites_every_attribute_witness :
  schema.Get Schema
    (data (resourceNatGatewayRead (Fixture.finding Fixture.live) Fixture.w).2) "public_ip"
  = schema.Get Schema
      (data (resourceNatGatewayRead (Fixture.finding Fixture.live) Fixture.stale).2)
      "public_ip"
  ∧ schema.Get Schema
      (data (resourceNatGatewayRead (Fixture.finding Fixture.live) Fixture.w).2) "tags_all"
    = schema.Get Schema
        (data (resourceNatGatewayRead (Fixture.finding Fixture.live) Fixture.stale).2)
        "tags_all".
Proof.
  split.
  - apply (Read_overwrites_every_attribute (Fixture.finding Fixture.live)
             Fixture.w Fixture.stale Fixture.live "available" Fixture.address []
             eq_refl eq_refl available_not_gone eq_refl
             "public_ip" (ex_intro _ schema.TypeString eq_refl)).
  - apply (Read_overwrites_every_attribute (Fixture.finding Fixture.live)
             Fixture.w Fixture.stale Fixture.live "available" Fixture.address []
             eq_refl eq_refl available_not_gone eq_refl
             "tags_all" (ex_intro _ schema.TypeMap eq_refl)).
Defined.

Lemma Create_sends_in_order_witness :
  let meta := Fixture.finding Fixture.live in
  let input := createInput meta Fixture.d in
  sentBy (resourceNatGatewayCreate meta) Fixture.w = [CallCreateNatGateway input]
  ∨ ∃ id,
      sentBy (resourceNatGatewayCreate meta) Fixture.w
      = [CallCreateNatGateway input; CallWaitNATGatewayCreated id]
      ∨ sentBy (resourceNatGatewayCreate meta) Fixture.w
        = [CallCreateNatGateway input; CallWaitNATGatewayCreated id; probeOf id].
Proof.
  apply (Create_sends_in_order (Fixture.finding Fixture.live) Fixture.w Fixture_wellTyped).
Defined.
